(** * Bar Osc: the menu-bar calibration oscillator (src/bar_osc.py)

    A shallow embedding of the helper functions, of the calibration
    sweeps and of the menu callbacks of [bar_osc.py], the properties its
    specification states about them, and further properties of the
    menu: what holds of the application between two callbacks, and the
    exceptions of the helpers.

    Number model.  Python floats are IEEE binary64 numbers; they are the
    kernel's primitive floats here, so products and comparisons are computed
    bit for bit as CPython computes them.  Python integers are [Z], with
    the limit CPython 3.11 puts on the digits of an integer it converts
    to text.  The C
    library's transcendental functions, which the kernel cannot run, are an
    interface ([Libm]); CPython's wrappers around them (domain and range
    checks, [math.log2] and friends) are written out over that interface,
    and [RefLibm] is an instance that runs.  The one property that rests
    on the accuracy of [log2] and [pow], the frequency round trip, is
    stated in the standard model of floating-point arithmetic
    ([RoundTrip]). *)

From Stdlib Require Import ZArith List String Ascii Bool Lia DecimalString.
From Stdlib Require Import Floats.
From Stdlib Require Import Reals Lra.
Import ListNotations.

Local Open Scope string_scope.
Local Open Scope Z_scope.

(* Decimal literals such as [1e-4] denote the nearest binary64 number, as
   they do in Python. *)
Set Warnings "-inexact-float".

(** ** Python runtime: exceptions *)

Inductive exn : Type :=
| ValueError          (* math domain error, float NaN to integer *)
| OverflowError       (* math range error, float infinity to integer *)
| ZeroDivisionError
| UnboundLocalError.  (* a local read before any branch assigned it *)

Inductive result (A : Type) : Type :=
| Ok (a : A)
| Raise (e : exn).
Arguments Ok {A} a.
Arguments Raise {A} e.

Definition bind {A B : Type} (r : result A) (k : A -> result B) : result B :=
  match r with
  | Ok a => k a
  | Raise e => Raise e
  end.

Notation "x <- r ;; k" := (bind r (fun x => k))
  (at level 61, r at next level, right associativity).

(** ** Python runtime: numbers *)

(** A Python number as this program handles them: an [int] or a [float]. *)
Inductive number : Type :=
| Int (z : Z)
| Float (f : float).

(** [PyLong_AsDouble]: the nearest binary64 number (ties to even), or
    [OverflowError] when the integer is beyond the binary64 range. *)
Definition float_of_Z (z : Z) : result float :=
  match binary_normalize prec emax z 0 false with
  | S754_infinity _ => Raise OverflowError
  | sf => Ok (SF2Prim sf)
  end.

Definition to_float (n : number) : result float :=
  match n with
  | Int z => float_of_Z z
  | Float f => Ok f
  end.

(** The exact order between a binary64 number and an integer, as CPython's
    mixed comparison decides it; [None] when the float is a NaN. *)
Definition compare_float_Z (f : float) (z : Z) : option comparison :=
  match Prim2SF f with
  | S754_nan => None
  | S754_infinity s => Some (if s then Lt else Gt)
  | S754_zero _ => Some (0 ?= z)
  | S754_finite s m e =>
      let v := if s then Z.neg m else Z.pos m in
      Some (if 0 <=? e then (v * 2 ^ e ?= z) else (v ?= z * 2 ^ (- e)))
  end.

Definition num_compare (a b : number) : option comparison :=
  match a, b with
  | Int x, Int y => Some (x ?= y)
  | Float x, Float y =>
      match PrimFloat.compare x y with
      | FEq => Some Eq
      | FLt => Some Lt
      | FGt => Some Gt
      | FNotComparable => None
      end
  | Float x, Int y => compare_float_Z x y
  | Int x, Float y => option_map CompOpp (compare_float_Z y x)
  end.

(** Python's [<], [<=], [>=] and [==] on numbers: false on a NaN. *)
Definition num_ltb (a b : number) : bool :=
  match num_compare a b with Some Lt => true | _ => false end.

Definition num_leb (a b : number) : bool :=
  match num_compare a b with Some (Lt | Eq) => true | _ => false end.

Definition num_geb (a b : number) : bool :=
  match num_compare a b with Some (Gt | Eq) => true | _ => false end.

Definition num_eqb (a b : number) : bool :=
  match num_compare a b with Some Eq => true | _ => false end.

(** Python's [*]: exact on two integers, the binary64 product otherwise
    (an integer operand is converted first). *)
Definition num_mul (a b : number) : result number :=
  match a, b with
  | Int x, Int y => Ok (Int (x * y))
  | _, _ =>
      x <- to_float a ;;
      y <- to_float b ;;
      Ok (Float (x * y)%float)
  end.

(** Python's [/]: true division, always a float. *)
Definition num_div (a b : number) : result number :=
  x <- to_float a ;;
  y <- to_float b ;;
  if (y =? 0)%float then Raise ZeroDivisionError else Ok (Float (x / y)%float).

(** ** Python runtime: rounding and printing floats *)

(** The nearest binary64 number (ties to even) to the fraction [n / d],
    [0 <= n], [0 < d], with sign [s]: CPython's correctly rounded
    string-to-double conversion, applied to a decimal. *)
Definition nearest_float (s : bool) (n d : Z) : float :=
  match n, d with
  | Z0, _ => SF2Prim (S754_zero s)
  | Z.pos pn, Z.pos pd =>
      SF2Prim (SFdiv prec emax (S754_finite s pn 0) (S754_finite false pd 0))
  | _, _ => nan
  end.

(** The integer nearest to [n / d] ([0 <= n], [0 < d]), ties to even. *)
Definition div_half_even (n d : Z) : Z :=
  let q := n / d in
  let r := n mod d in
  match 2 * r ?= d with
  | Lt => q
  | Gt => q + 1
  | Eq => if Z.even q then q else q + 1
  end.

(** The magnitude of a finite float [m * 2 ^ e] as a fraction. *)
Definition fraction_of (m : positive) (e : Z) : Z * Z :=
  if 0 <=? e then (Z.pos m * 2 ^ e, 1) else (Z.pos m, 2 ^ (- e)).

(** [round(x)] on a float: the nearest integer, ties to even. *)
Definition float_round (x : float) : result Z :=
  match Prim2SF x with
  | S754_nan => Raise ValueError
  | S754_infinity _ => Raise OverflowError
  | S754_zero _ => Ok 0
  | S754_finite s m e =>
      let '(n, d) := fraction_of m e in
      let k := div_half_even n d in
      Ok (if s then - k else k)
  end.

(** [round(x, ndigits)] on a float, [0 <= ndigits]: the float nearest to
    the decimal with [ndigits] fractional digits nearest to [x] (ties to
    even on the exact binary value); the sign of [x] is kept, also on a
    zero. *)
Definition float_round_ndigits (x : float) (ndigits : Z) : float :=
  match Prim2SF x with
  | S754_finite s m e =>
      let '(n, d) := fraction_of m e in
      let p := 10 ^ ndigits in
      nearest_float s (div_half_even (n * p) d) p
  | _ => x
  end.

Definition round (n : number) : result number :=
  match n with
  | Int z => Ok (Int z)
  | Float f => k <- float_round f ;; Ok (Int k)
  end.

Definition round_ndigits (n : number) (ndigits : Z) : number :=
  match n with
  | Int z => Int z
  | Float f => Float (float_round_ndigits f ndigits)
  end.

(** Decimal digits of a non-negative integer. *)
Definition digits (z : Z) : string :=
  NilZero.string_of_uint (N.to_uint (Z.to_N z)).

Fixpoint zeros (n : nat) : string :=
  match n with
  | O => ""
  | S n' => "0" ++ zeros n'
  end.

(** [0 < 10 ^ k <= n / d], for any sign of [k]. *)
Definition pow10_le (k n d : Z) : bool :=
  if 0 <=? k then d * 10 ^ k <=? n else d <=? n * 10 ^ (- k).

(** The decimal point of [n / d] ([0 < n], [0 < d]): the [p] with
    [10 ^ (p - 1) <= n / d < 10 ^ p], found from the binary logarithms. *)
Definition decimal_point (n d : Z) : Z :=
  let est := (Z.log2 n - Z.log2 d) * 30103 / 100000 in
  let p := if pow10_le (est - 1) n d then est else est - 1 in
  let p := if pow10_le p n d then p + 1 else p in
  if pow10_le p n d then p + 1 else p.

(** Does the decimal [D * 10 ^ k] read back as the positive float [x]? *)
Definition reads_back (x : float) (D k : Z) : bool :=
  let y := if 0 <=? k then nearest_float false (D * 10 ^ k) 1
           else nearest_float false D (10 ^ (- k)) in
  (y =? x)%float.

(** The shortest decimal that reads back as the positive finite float
    [m * 2 ^ e], the nearest to it among the shortest: its digits as an
    integer [D] and the exponent [k] of its last digit, trying 1, 2, ...
    significant digits (17 always suffice for binary64). *)
Fixpoint shortest_from (fuel : nat) (x : float) (n d p nd : Z) : Z * Z :=
  let k := p - nd in
  let '(N, M) := if 0 <=? k then (n, d * 10 ^ k) else (n * 10 ^ (- k), d) in
  let q := N / M in
  let near := div_half_even N M in
  let far := if q =? near then q + 1 else q in
  if reads_back x near k then (near, k)
  else if reads_back x far k then (far, k)
  else match fuel with
       | O => (near, k)
       | S fuel' => shortest_from fuel' x n d p (nd + 1)
       end.

Fixpoint strip_zeros (fuel : nat) (D k : Z) : Z * Z :=
  match fuel with
  | O => (D, k)
  | S fuel' => if (D mod 10 =? 0) && negb (D =? 0)
               then strip_zeros fuel' (D / 10) (k + 1) else (D, k)
  end.

(** The text of a positive finite float whose shortest digits are the
    string [ds] with the decimal point after [decpt] of them: exponent
    notation when [decpt <= -4] or [decpt > 16], as [repr] has it. *)
Definition float_layout (ds : string) (decpt : Z) : string :=
  let len := Z.of_nat (String.length ds) in
  if (decpt <=? -4) || (16 <? decpt) then
    let e := decpt - 1 in
    let mant := match ds with
                | String c EmptyString => String c EmptyString
                | String c rest => String c ("." ++ rest)
                | EmptyString => ""
                end in
    let ed := digits (Z.abs e) in
    mant ++ "e" ++ (if e <? 0 then "-" else "+")
         ++ (if Z.abs e <? 10 then "0" else "") ++ ed
  else if decpt <=? 0 then "0." ++ zeros (Z.to_nat (- decpt)) ++ ds
  else if len <=? decpt then ds ++ zeros (Z.to_nat (decpt - len)) ++ ".0"
  else substring 0 (Z.to_nat decpt) ds ++ "."
       ++ substring (Z.to_nat decpt) (Z.to_nat (len - decpt)) ds.

(** [repr(x)] of a float, which is also what an f-string prints for it. *)
Definition float_repr (x : float) : string :=
  match Prim2SF x with
  | S754_nan => "nan"
  | S754_infinity s => if s then "-inf" else "inf"
  | S754_zero s => if s then "-0.0" else "0.0"
  | S754_finite s m e =>
      let '(n, d) := fraction_of m e in
      let p := decimal_point n d in
      let '(D, k) := shortest_from 17 (abs x) n d p 1 in
      let '(D, k) := strip_zeros 20 D k in
      let ds := digits D in
      (if s then "-" else "") ++ float_layout ds (k + Z.of_nat (String.length ds))
  end.

(** The decimal text of an integer. *)
Definition int_repr (z : Z) : string := NilZero.string_of_int (Z.to_int z).

(** [sys.get_int_max_str_digits()], which the program leaves at its
    default. *)
Definition max_str_digits : Z := 4300.

(** [10 ** max_str_digits], the least magnitude with more than
    [max_str_digits] decimal digits, computed once. *)
Definition int_str_limit : Z := Eval vm_compute in 10 ^ max_str_digits.

(** [str] of an int: a [ValueError] when the integer has more than
    [max_str_digits] decimal digits, the sign not counted (CPython 3.11:
    exceeds the limit for integer string conversion). *)
Definition int_str (z : Z) : result string :=
  if int_str_limit <=? Z.abs z then Raise ValueError
  else Ok (int_repr z).

(** [str] of a number, as an f-string field and [print] convert it. *)
Definition num_str (n : number) : result string :=
  match n with
  | Int z => int_str z
  | Float f => Ok (float_repr f)
  end.

(** ** Python runtime: the [math] module *)

(** The C library's functions on doubles.  They are total (C99 Annex F:
    a NaN or an infinity where the mathematical result is not a finite
    double); nothing else is known of their values here. *)
Class Libm : Type := {
  libm_log : float -> float;
  libm_log2 : float -> float;
  libm_log10 : float -> float;
  libm_exp : float -> float;
  libm_pow : float -> float -> float
}.

Section MathModule.
Context {libm : Libm}.

(** [_PyLong_Frexp]: an integer [0 < z] as [x * 2 ^ e], [x] the double
    in [[0.5, 1)] nearest to [z / 2 ^ e]. *)
Definition long_frexp (z : Z) : float * Z :=
  let e := Z.log2 z + 1 in
  let x := nearest_float false z (2 ^ e) in
  if (x =? 1)%float then (0.5%float, e + 1) else (x, e).

(** [loghelper]: the domain check of [math.log], [math.log2] and
    [math.log10].  A float that is [<= 0] (a zero of either sign, a
    negative number, minus infinity) is a math domain error, and so is an
    integer [<= 0]; an integer too large for a double goes through
    [long_frexp].  On any other float the C function's result is
    returned (a NaN stays a NaN; on a positive finite argument a
    conforming C library returns a finite value, so CPython's check of
    the result never fires). *)
Definition loghelper (func : float -> float) (arg : number) : result number :=
  match arg with
  | Int z =>
      if z <=? 0 then Raise ValueError
      else match float_of_Z z with
           | Ok x => Ok (Float (func x))
           | Raise _ =>
               let '(x, e) := long_frexp z in
               Ok (Float (func x + func 2 * SF2Prim (binary_normalize prec emax e 0 false))%float)
           end
  | Float x =>
      if (x <=? 0)%float then Raise ValueError else Ok (Float (func x))
  end.

Definition math_log : number -> result number := loghelper libm_log.
Definition math_log2 : number -> result number := loghelper libm_log2.
Definition math_log10 : number -> result number := loghelper libm_log10.

(** [math.exp] ([math_1] with [can_overflow]): a math domain error when
    the result is a NaN and the argument is not, a math range error when
    the result of a finite argument is infinite. *)
Definition math_exp (arg : number) : result number :=
  x <- to_float arg ;;
  let r := libm_exp x in
  if is_nan r && negb (is_nan x) then Raise ValueError
  else if is_infinity r && is_finite x then Raise OverflowError
  else Ok (Float r).

(** [math.pow]: on finite arguments a NaN result is a math domain error
    and an infinite one a math range error (a domain error when the base
    is zero); on other arguments the C function's result is returned. *)
Definition math_pow (a b : number) : result number :=
  x <- to_float a ;;
  y <- to_float b ;;
  let r := libm_pow x y in
  if is_finite x && is_finite y then
    if is_nan r then Raise ValueError
    else if is_infinity r
         then Raise (if (x =? 0)%float then ValueError else OverflowError)
         else Ok (Float r)
  else Ok (Float r).

End MathModule.

(** A reference C library, for running the model: range reduction and
    truncated power series, accurate to a few units in the last place (not
    bit for bit the platform's library). *)
Module RefLibm.
Local Open Scope float_scope.

Definition ln2 : float := 0x1.62e42fefa39efp-1.
Definition sqrt_half : float := 0x1.6a09e667f3bcdp-1.

(** [sum_{k < n} t2 ^ k / (2 k + 1)], by Horner's rule from the last
    term. *)
Fixpoint atanh_series (n : nat) (k : float) (t2 : float) (acc : float) : float :=
  match n with
  | O => acc
  | S n' => atanh_series n' (k - 2) t2 (1 / k + t2 * acc)
  end.

(** The natural logarithm of a mantissa [m] in [[sqrt(1/2), sqrt 2)]:
    [2 atanh ((m - 1) / (m + 1))]. *)
Definition ln_mantissa (m : float) : float :=
  let t := (m - 1) / (m + 1) in
  2 * t * atanh_series 14 27 (t * t) 0.

Definition log2 (x : float) : float :=
  if is_nan x then x
  else if x <? 0 then nan
  else if x =? 0 then neg_infinity
  else if is_infinity x then x
  else
    let '(m, e) := Z.frexp x in
    let '(m, e) := if m <? sqrt_half then (2 * m, (e - 1)%Z) else (m, e) in
    SF2Prim (binary_normalize prec emax e 0 false) + ln_mantissa m / ln2.

Definition log (x : float) : float := log2 x * ln2.
Definition log10 (x : float) : float := log2 x * 0x1.34413509f79ffp-2.

(** [sum_{k <= n} r ^ k / k!], by Horner's rule. *)
Fixpoint exp_series (n : nat) (k : float) (r : float) (acc : float) : float :=
  match n with
  | O => acc
  | S n' => exp_series n' (k - 1) r (1 + r / k * acc)
  end.

(** [2 ^ z]: [z = k + f] with [k] the nearest integer. *)
Definition exp2 (z : float) : float :=
  if is_nan z then z
  else if 1100 <? z then infinity
  else if z <? -1100 then 0
  else match float_round z with
       | Ok k =>
           let f := z - SF2Prim (binary_normalize prec emax k 0 false) in
           Z.ldexp (exp_series 20 20 (f * ln2) 1) k
       | Raise _ => nan
       end.

Definition exp (x : float) : float := exp2 (x / ln2).

Definition pow (x y : float) : float :=
  if y =? 0 then 1
  else if x =? 1 then 1
  else if x <? 0 then nan
  else exp2 (y * log2 x).

End RefLibm.

Definition ref_libm : Libm :=
  {| libm_log := RefLibm.log;
     libm_log2 := RefLibm.log2;
     libm_log10 := RefLibm.log10;
     libm_exp := RefLibm.exp;
     libm_pow := RefLibm.pow |}.

(** ** Python runtime: dynamically typed values and [try] / [except] *)

Inductive value : Type :=
| Num (n : number)
| Str (s : string).

(** [==] between values: a string never equals a number. *)
Definition value_eqb (a b : value) : bool :=
  match a, b with
  | Num x, Num y => num_eqb x y
  | Str x, Str y => String.eqb x y
  | _, _ => false
  end.

Definition value_str (v : value) : result string :=
  match v with
  | Num n => num_str n
  | Str s => Ok s
  end.

(** [try: body  except e: handler]: only the named exception is caught. *)
Definition try_except {A : Type} (body : result A) (e : exn) (handler : result A)
  : result A :=
  match body with
  | Ok a => Ok a
  | Raise e' => match e, e' with
                | ValueError, ValueError
                | OverflowError, OverflowError
                | ZeroDivisionError, ZeroDivisionError
                | UnboundLocalError, UnboundLocalError => handler
                | _, _ => Raise e'
                end
  end.

(** The [deprecated] decorator: the wrapped function's result, after a
    [DeprecationWarning] naming the function has been issued. *)
Inductive warning : Type :=
| DeprecationWarning (message : string).

Definition deprecated {A B : Type} (name : string) (func : A -> B)
  : A -> list warning * B :=
  fun x => ([DeprecationWarning ("Call to deprecated function " ++ name ++ ".")],
            func x).

(** ** Helper functions of bar_osc.py *)

Section Helpers.
Context {libm : Libm}.

Definition slider_to_freq (value : number) : result number :=
  e <- num_mul value (Float 1e-4) ;;
  p <- math_pow (Int 2) e ;;
  round p.

Definition freq_to_slider (freq : number) : result number :=
  l <- math_log2 freq ;;
  num_mul l (Float 1e4).

Definition freq_title_format (freq : number) : result string :=
  if num_ltb freq (Int 10000) then
    text <- num_str freq ;;
    Ok ("Frequency: " ++ text ++ " Hz")
  else if num_geb freq (Int 10000) then
    f <- num_mul freq (Float 1e-3) ;;
    let freq := round_ndigits f 1 in
    text <- num_str freq ;;
    Ok ("Frequency: " ++ text ++ " kHz")
  else Raise UnboundLocalError.

Definition slider_to_amp : number -> list warning * result number :=
  deprecated "slider_to_amp" (fun value =>
    x <- num_mul (Float 6.908) value ;;
    e <- math_exp x ;;
    y <- num_mul (Float 1e-3) e ;;
    let amp := round_ndigits y 3 in
    (* smooth rolloff *)
    if num_ltb value (Float 0.001) then
      r <- num_mul value (Int 10) ;;
      num_mul amp r
    else Ok amp).

Definition amp_to_slider : number -> list warning * result number :=
  deprecated "amp_to_slider" (fun amp =>
    q <- num_div amp (Float 1e-3) ;;
    l <- math_log q ;;
    num_div l (Float 6.908)).

Definition amp_title_format (amp : number) : result string :=
  dBFS <- try_except
            (l <- math_log10 amp ;;
             p <- num_mul (Int 20) l ;;
             Ok (Num (round_ndigits p 1)))
            ValueError
            (Ok (Str "-∞")) ;;
  let dBFS := if value_eqb dBFS (Num (Float 0)) then Str "-0.0" else dBFS in
  text <- value_str dBFS ;;
  Ok ("Volume: " ++ text ++ " dBFS").

End Helpers.

(** ** The oscillator *)

Inductive wave : Type :=
| sine_wave
| square_wave
| white_noise
| pink_noise.

(** Modelled from the spec: the audio output stream an oscillator owns
    while it plays (oscillator.py is not among the sources).  Spec 4.3: a
    StreamHandle is bound to the sample rate and the wave type current
    when it is allocated. *)
Record StreamHandle : Type := {
  stream_samplerate : Z;
  stream_wave : wave
}.

(** The attributes of an [Oscillator], as [BarOscApp.__init__] passes them
    and the callbacks read and assign them; [stream] is [None] while the
    oscillator is idle. *)
Record Oscillator : Type := {
  samplerate : Z;
  wave_type : wave;
  amplitude : number;
  frequency : number;
  stream : option StreamHandle
}.

Definition set_wave_type (w : wave) (o : Oscillator) : Oscillator :=
  {| samplerate := samplerate o; wave_type := w; amplitude := amplitude o;
     frequency := frequency o; stream := stream o |}.

Definition set_frequency (f : number) (o : Oscillator) : Oscillator :=
  {| samplerate := samplerate o; wave_type := wave_type o;
     amplitude := amplitude o; frequency := f; stream := stream o |}.

Definition set_stream (s : option StreamHandle) (o : Oscillator) : Oscillator :=
  {| samplerate := samplerate o; wave_type := wave_type o;
     amplitude := amplitude o; frequency := frequency o; stream := s |}.

(** What a run of the program does to the outside world, in order. *)
Inductive event : Type :=
| Print (line : string)                         (* [print] *)
| Sleep (seconds : Z)                           (* [time.sleep] *)
| Play (h : StreamHandle) (amp freq : number)   (* a tone becomes audible *)
| Stop (h : StreamHandle)                       (* the stream is released *)
| Misuse (method : string).                     (* a reported misuse *)

(** Modelled from the spec: [Oscillator.play], the spec's [start()]
    (oscillator.py is not among the sources).  Spec 4.3: from Idle it
    allocates a StreamHandle bound to the current sample rate and wave
    type and starts playing at the live frequency and amplitude; spec 7
    (c): while already streaming it is a no-op with a reported warning. *)
Definition play (o : Oscillator) : Oscillator * list event :=
  match stream o with
  | None =>
      let h := {| stream_samplerate := samplerate o;
                  stream_wave := wave_type o |} in
      (set_stream (Some h) o, [Play h (amplitude o) (frequency o)])
  | Some _ => (o, [Misuse "play"])
  end.

(** Modelled from the spec: [Oscillator.stop] (oscillator.py is not among
    the sources).  Spec 4.3: from Streaming it releases the StreamHandle
    and goes to Idle; spec 7 (c): while idle it is a no-op with a reported
    warning. *)
Definition stop (o : Oscillator) : Oscillator * list event :=
  match stream o with
  | Some h => (set_stream None o, [Stop h])
  | None => (o, [Misuse "stop"])
  end.

(** ** The menu bar application *)

(** The callbacks a menu item can carry. *)
Inductive callback : Type :=
| cb_start_osc
| cb_stop_osc.

(** The part of [BarOscApp] the calibration sweeps touch: the single
    oscillator and the callbacks of the Start and Stop buttons. *)
Record BarOscApp : Type := {
  osc : Oscillator;
  start_button : option callback;
  stop_button : option callback
}.

Definition set_osc (o : Oscillator) (a : BarOscApp) : BarOscApp :=
  {| osc := o; start_button := start_button a; stop_button := stop_button a |}.

(** Menu while not playing. *)
Definition osc_ready_menu (a : BarOscApp) : BarOscApp :=
  {| osc := osc a; start_button := Some cb_start_osc; stop_button := None |}.

(** Menu while playing. *)
Definition osc_busy_menu (a : BarOscApp) : BarOscApp :=
  {| osc := osc a; start_button := None; stop_button := Some cb_stop_osc |}.

(** A method of the application: from a state, either it does not finish
    within the fuel given to its loop ([None]), or it ends (returning or
    raising) in a new state, having produced some events. *)
Definition method (A : Type) : Type :=
  BarOscApp -> option (result A * BarOscApp * list event).

Definition ret {A : Type} (x : A) : method A :=
  fun a => Some (Ok x, a, []).

Definition seq {A B : Type} (m : method A) (k : A -> method B) : method B :=
  fun a =>
    match m a with
    | None => None
    | Some (Raise e, a1, t1) => Some (Raise e, a1, t1)
    | Some (Ok x, a1, t1) =>
        match k x a1 with
        | None => None
        | Some (r, a2, t2) => Some (r, a2, (t1 ++ t2)%list)
        end
    end.

Notation "x <~ m ;; k" := (seq m (fun x => k))
  (at level 61, m at next level, right associativity).
Notation "m ;;; k" := (seq m (fun _ => k))
  (at level 61, right associativity).

Definition read {A : Type} (f : BarOscApp -> A) : method A :=
  fun a => Some (Ok (f a), a, []).

Definition assign (f : BarOscApp -> BarOscApp) : method unit :=
  fun a => Some (Ok tt, f a, []).

Definition emit (e : event) : method unit :=
  fun a => Some (Ok tt, a, [e]).

Definition lift {A : Type} (r : result A) : method A :=
  fun a => Some (r, a, []).

(** A call of a method of [self.osc]. *)
Definition on_osc (f : Oscillator -> Oscillator * list event) : method unit :=
  fun a => let '(o, t) := f (osc a) in Some (Ok tt, set_osc o a, t).

(** [while cond: body], with at most [fuel] tests of the condition. *)
Fixpoint while (fuel : nat) (cond : BarOscApp -> bool) (body : method unit)
  : method unit :=
  match fuel with
  | O => fun _ => None
  | S fuel' =>
      b <~ read cond ;;
      if b then body ;;; while fuel' cond body else ret tt
  end.

(** Start Oscillator callback. *)
Definition start_osc : method unit :=
  assign osc_busy_menu ;;;
  on_osc play.

(** Stop Oscillator callback. *)
Definition stop_osc : method unit :=
  assign osc_ready_menu ;;;
  on_osc stop.

(** Octave Walk callback: walk up with a sine wave, A0 (27.5 Hz) to
    A6 (1760 Hz). *)
Definition octave_walk (fuel : nat) : method unit :=
  (* stop osc if playing *)
  s <~ read (fun a => stream (osc a)) ;;
  (match s with Some _ => stop_osc | None => ret tt end) ;;;
  (* remember settings *)
  retain_wave <~ read (fun a => wave_type (osc a)) ;;
  retain_freq <~ read (fun a => frequency (osc a)) ;;
  (* calibration settings *)
  assign (fun a => set_osc (set_wave_type sine_wave (osc a)) a) ;;;
  assign (fun a => set_osc (set_frequency (Float 27.5) (osc a)) a) ;;;
  (* run it *)
  while fuel (fun a => num_leb (frequency (osc a)) (Int 1760))
    (f <~ read (fun a => frequency (osc a)) ;;
     text <~ lift (num_str f) ;;
     emit (Print (text ++ " Hz")) ;;;
     on_osc play ;;;
     emit (Sleep 1) ;;;
     on_osc stop ;;;
     f <~ read (fun a => frequency (osc a)) ;;
     f' <~ lift (num_mul f (Int 2)) ;;
     assign (fun a => set_osc (set_frequency f' (osc a)) a)) ;;;
  (* return to original settings *)
  assign (fun a => set_osc (set_wave_type retain_wave (osc a)) a) ;;;
  assign (fun a => set_osc (set_frequency retain_freq (osc a)) a).

Section Thirds.
Context {libm : Libm}.

(** The Python expression [2**(1/3)]: [1/3] is the double
    [0x1.5555555555555p-2], and the power of the float 2.0 by it is the C
    library's [pow]. *)
Definition two_pow_third : float := libm_pow 2 (1 / 3).

(** Octave Walk 1/3 callback: walk up by 1/3 octaves, A0 (27.5 Hz) to
    A6 (1760 Hz). *)
Definition octave_walk_thirds (fuel : nat) : method unit :=
  (* stop osc if playing *)
  s <~ read (fun a => stream (osc a)) ;;
  (match s with Some _ => stop_osc | None => ret tt end) ;;;
  (* remember settings *)
  retain_wave <~ read (fun a => wave_type (osc a)) ;;
  retain_freq <~ read (fun a => frequency (osc a)) ;;
  (* calibration settings *)
  assign (fun a => set_osc (set_wave_type sine_wave (osc a)) a) ;;;
  assign (fun a => set_osc (set_frequency (Float 27.5) (osc a)) a) ;;;
  (* run it *)
  while fuel (fun a => num_leb (frequency (osc a)) (Int 1760))
    (f <~ read (fun a => frequency (osc a)) ;;
     text <~ lift (num_str f) ;;
     emit (Print (text ++ " Hz")) ;;;
     on_osc play ;;;
     emit (Sleep 1) ;;;
     on_osc stop ;;;
     f <~ read (fun a => frequency (osc a)) ;;
     f' <~ lift (num_mul f (Float two_pow_third)) ;;
     assign (fun a => set_osc (set_frequency f' (osc a)) a)) ;;;
  (* return to original settings *)
  assign (fun a => set_osc (set_wave_type retain_wave (osc a)) a) ;;;
  assign (fun a => set_osc (set_frequency retain_freq (osc a)) a).

End Thirds.

(** The double nearest to the cube root of two, [1.2599210498948732]:
    what [2**(1/3)] evaluates to in CPython on a C library whose [pow]
    rounds correctly there. *)
Definition cube_root_of_two : float := 0x1.428a2f98d728bp+0.

(** The application as [BarOscApp.__init__] leaves it: a 440 Hz sine
    wave at amplitude 0.5 and 44100 samples per second, idle, with the
    menu of an idle oscillator. *)
Definition initial_app : BarOscApp :=
  {| osc := {| samplerate := 44100; wave_type := sine_wave;
               amplitude := Float 0.5; frequency := Int 440;
               stream := None |};
     start_button := Some cb_start_osc;
     stop_button := None |}.

(** The application after the Square Wave and Start Oscillator callbacks:
    it streams a square wave. *)
Definition start_osc_state : BarOscApp :=
  {| osc := {| samplerate := 44100; wave_type := square_wave;
               amplitude := Float 0.5; frequency := Int 440;
               stream := Some {| stream_samplerate := 44100;
                                 stream_wave := square_wave |} |};
     start_button := None;
     stop_button := Some cb_stop_osc |}.

(** ** The frequency round trip in the standard model of floating point

    [math.log2] and [math.pow] cannot be run here, and what is known of
    them is how accurate they are.  For the round trip the two frequency
    functions are therefore read in the standard model of floating-point
    arithmetic: a finite double is the real number it denotes, and an
    operation returns the exact result up to a relative error.  No
    exception arises on the frequencies concerned. *)
Module RoundTrip.

(** The operations the two functions use. *)
Record arith : Type := {
  fl_mul : R -> R -> R;   (* the binary64 product *)
  fl_log2 : R -> R;       (* [math.log2] *)
  fl_pow : R -> R -> R    (* [math.pow] *)
}.

(** The double the literal [1e-4] denotes, [0x1.a36e2eb1c432dp-14]. *)
Definition lit_1em4 : R := (7378697629483821 / 73786976294838206464)%R.

(** [round(x)]: the nearest integer, ties to even. *)
Definition py_round (x : R) : Z :=
  let n := Int_part x in
  let d := (x - IZR n)%R in
  if Rlt_dec d (/ 2) then n
  else if Rlt_dec (/ 2) d then n + 1
  else if Z.even n then n else n + 1.

Definition slider_to_freq (A : arith) (value : R) : Z :=
  py_round (fl_pow A 2 (fl_mul A value lit_1em4)).

Definition freq_to_slider (A : arith) (freq : R) : R :=
  fl_mul A (fl_log2 A freq) 10000.

(** Operations within a relative error [u] of the exact ones, where the
    round trip of a frequency in [[20, 20000]] uses them. *)
Definition accurate (u : R) (A : arith) : Prop :=
  (forall x y, 1 <= x * y <= 1000000 ->
               Rabs (fl_mul A x y - x * y) <= u * (x * y))%R /\
  (forall x, 20 <= x <= 20000 ->
             Rabs (fl_log2 A x - ln x / ln 2) <= u * (ln x / ln 2))%R /\
  (forall y, 3 <= y <= 16 ->
             Rabs (fl_pow A 2 y - Rpower 2 y) <= u * Rpower 2 y)%R.

(** Exact arithmetic, the instance with no error at all. *)
Definition exact : arith :=
  {| fl_mul := Rmult; fl_log2 := fun x => (ln x / ln 2)%R; fl_pow := Rpower |}.

End RoundTrip.

(** ** Vocabulary of the sweep properties *)

(** The frequencies that became audible during a run, in order. *)
Definition played (t : list event) : list number :=
  flat_map (fun e => match e with Play _ _ f => [f] | _ => [] end) t.

(** What a sweep does before its loop to an oscillator in state [o]:
    nothing when it is idle, the release of its stream otherwise. *)
Definition stop_first (o : Oscillator) : list event :=
  match stream o with
  | Some h => [Stop h]
  | None => []
  end.

(** One step of a sweep started on the oscillator [o], at frequency [f]:
    the frequency is printed, a sine wave plays at the amplitude of [o]
    for one second, and the stream is released. *)
Definition sweep_step (o : Oscillator) (f : float) : list event :=
  let h := {| stream_samplerate := samplerate o; stream_wave := sine_wave |} in
  [Print (float_repr f ++ " Hz"); Play h (amplitude o) (Float f); Sleep 1; Stop h].

(** The [n] first terms of the sequence [f, f * ratio, (f * ratio) * ratio,
    ...], each product rounded as binary64 multiplication rounds it. *)
Fixpoint geometric (n : nat) (f ratio : float) : list float :=
  match n with
  | O => []
  | S n' => f :: geometric n' (f * ratio)%float ratio
  end.

(** ** The whole menu

    The sweeps touch the oscillator and the Start and Stop buttons only
    ([BarOscApp] above).  The other callbacks also read and assign the
    titles, the sliders and the wave type buttons that [build_menu]
    defines; [App] is the application object with all of them. *)

Definition set_amplitude (x : number) (o : Oscillator) : Oscillator :=
  {| samplerate := samplerate o; wave_type := wave_type o;
     amplitude := x; frequency := frequency o; stream := stream o |}.

(** Modelled from the spec: the constructor of [Oscillator] (oscillator.py
    is not among the sources).  It keeps the four settings it is given;
    spec 4.3: an oscillator is Idle, with no StreamHandle, until it is
    started. *)
Definition Oscillator_init (samplerate : Z) (wave_type : wave)
    (amplitude frequency : number) : Oscillator :=
  {| samplerate := samplerate; wave_type := wave_type;
     amplitude := amplitude; frequency := frequency; stream := None |}.

(** The callbacks of the menu items other than Start and Stop. *)
Inductive menu_callback : Type :=
| cb_adj_amp
| cb_set_sine_wave
| cb_set_square_wave
| cb_set_white_noise
| cb_set_pink_noise
| cb_adj_freq
| cb_octave_walk
| cb_octave_walk_thirds.

(** [rumps.MenuItem]: its title and its callback. *)
Record MenuItem : Type := {
  title : string;
  item_callback : option menu_callback
}.

(** [rumps.SliderMenuItem]: its value and its bounds are those of the
    slider it wraps, which holds doubles; [value] reads back a float. *)
Record SliderMenuItem : Type := {
  slider_value : float;
  min_value : float;
  max_value : float;
  slider_callback : option menu_callback;
  dimensions : Z * Z
}.

(** The constructor of [rumps.SliderMenuItem]: the bounds, then the
    value, are given to the slider, which converts them to doubles. *)
Definition SliderMenuItem_init (value lowest highest : number)
    (callback : option menu_callback) (dimensions : Z * Z)
  : result SliderMenuItem :=
  lo <- to_float lowest ;;
  hi <- to_float highest ;;
  v <- to_float value ;;
  Ok {| slider_value := v; min_value := lo; max_value := hi;
        slider_callback := callback; dimensions := dimensions |}.

(** [MenuItem.set_callback] and the assignments to [title] and
    [value]. *)
Definition set_callback (cb : option menu_callback) (i : MenuItem) : MenuItem :=
  {| title := title i; item_callback := cb |}.

Definition set_title (t : string) (i : MenuItem) : MenuItem :=
  {| title := t; item_callback := item_callback i |}.

Definition set_value (v : float) (s : SliderMenuItem) : SliderMenuItem :=
  {| slider_value := v; min_value := min_value s; max_value := max_value s;
     slider_callback := slider_callback s; dimensions := dimensions s |}.

(** The entries of the menu, in the order of [self.app.menu]. *)
Inductive menu_item : Type :=
| item_start
| item_stop
| item_amp_title
| item_sine_wave
| item_square_wave
| item_white_noise
| item_pink_noise
| item_freq_title
| item_octave
| item_octave_thirds
| item_noise_pan
| item_settings.

Inductive slider_item : Type :=
| item_amp_slider
| item_freq_slider.

Inductive entry : Type :=
| button (i : menu_item)
| slider (s : slider_item)
| separator.

(** The items [build_menu] defines, apart from the Start and Stop buttons
    (which are in [BarOscApp]), and the menu populated with them. *)
Record Menu : Type := {
  amp_title : MenuItem;
  amp_slider : SliderMenuItem;
  sine_wave_button : MenuItem;
  square_wave_button : MenuItem;
  white_noise_button : MenuItem;
  pink_noise_button : MenuItem;
  freq_title : MenuItem;
  freq_slider : SliderMenuItem;
  octave_button : MenuItem;
  octave_thirds_button : MenuItem;
  noise_pan_button : MenuItem;
  settings_button : MenuItem;
  layout : list entry
}.

Definition set_amp_title (i : MenuItem) (m : Menu) : Menu :=
  {| amp_title := i; amp_slider := amp_slider m;
     sine_wave_button := sine_wave_button m;
     square_wave_button := square_wave_button m;
     white_noise_button := white_noise_button m;
     pink_noise_button := pink_noise_button m;
     freq_title := freq_title m; freq_slider := freq_slider m;
     octave_button := octave_button m;
     octave_thirds_button := octave_thirds_button m;
     noise_pan_button := noise_pan_button m;
     settings_button := settings_button m; layout := layout m |}.

Definition set_amp_slider (i : SliderMenuItem) (m : Menu) : Menu :=
  {| amp_title := amp_title m; amp_slider := i;
     sine_wave_button := sine_wave_button m;
     square_wave_button := square_wave_button m;
     white_noise_button := white_noise_button m;
     pink_noise_button := pink_noise_button m;
     freq_title := freq_title m; freq_slider := freq_slider m;
     octave_button := octave_button m;
     octave_thirds_button := octave_thirds_button m;
     noise_pan_button := noise_pan_button m;
     settings_button := settings_button m; layout := layout m |}.

Definition set_sine_wave_button (i : MenuItem) (m : Menu) : Menu :=
  {| amp_title := amp_title m; amp_slider := amp_slider m;
     sine_wave_button := i;
     square_wave_button := square_wave_button m;
     white_noise_button := white_noise_button m;
     pink_noise_button := pink_noise_button m;
     freq_title := freq_title m; freq_slider := freq_slider m;
     octave_button := octave_button m;
     octave_thirds_button := octave_thirds_button m;
     noise_pan_button := noise_pan_button m;
     settings_button := settings_button m; layout := layout m |}.

Definition set_square_wave_button (i : MenuItem) (m : Menu) : Menu :=
  {| amp_title := amp_title m; amp_slider := amp_slider m;
     sine_wave_button := sine_wave_button m;
     square_wave_button := i;
     white_noise_button := white_noise_button m;
     pink_noise_button := pink_noise_button m;
     freq_title := freq_title m; freq_slider := freq_slider m;
     octave_button := octave_button m;
     octave_thirds_button := octave_thirds_button m;
     noise_pan_button := noise_pan_button m;
     settings_button := settings_button m; layout := layout m |}.

Definition set_white_noise_button (i : MenuItem) (m : Menu) : Menu :=
  {| amp_title := amp_title m; amp_slider := amp_slider m;
     sine_wave_button := sine_wave_button m;
     square_wave_button := square_wave_button m;
     white_noise_button := i;
     pink_noise_button := pink_noise_button m;
     freq_title := freq_title m; freq_slider := freq_slider m;
     octave_button := octave_button m;
     octave_thirds_button := octave_thirds_button m;
     noise_pan_button := noise_pan_button m;
     settings_button := settings_button m; layout := layout m |}.

Definition set_pink_noise_button (i : MenuItem) (m : Menu) : Menu :=
  {| amp_title := amp_title m; amp_slider := amp_slider m;
     sine_wave_button := sine_wave_button m;
     square_wave_button := square_wave_button m;
     white_noise_button := white_noise_button m;
     pink_noise_button := i;
     freq_title := freq_title m; freq_slider := freq_slider m;
     octave_button := octave_button m;
     octave_thirds_button := octave_thirds_button m;
     noise_pan_button := noise_pan_button m;
     settings_button := settings_button m; layout := layout m |}.

Definition set_freq_title (i : MenuItem) (m : Menu) : Menu :=
  {| amp_title := amp_title m; amp_slider := amp_slider m;
     sine_wave_button := sine_wave_button m;
     square_wave_button := square_wave_button m;
     white_noise_button := white_noise_button m;
     pink_noise_button := pink_noise_button m;
     freq_title := i; freq_slider := freq_slider m;
     octave_button := octave_button m;
     octave_thirds_button := octave_thirds_button m;
     noise_pan_button := noise_pan_button m;
     settings_button := settings_button m; layout := layout m |}.

Definition set_freq_slider (i : SliderMenuItem) (m : Menu) : Menu :=
  {| amp_title := amp_title m; amp_slider := amp_slider m;
     sine_wave_button := sine_wave_button m;
     square_wave_button := square_wave_button m;
     white_noise_button := white_noise_button m;
     pink_noise_button := pink_noise_button m;
     freq_title := freq_title m; freq_slider := i;
     octave_button := octave_button m;
     octave_thirds_button := octave_thirds_button m;
     noise_pan_button := noise_pan_button m;
     settings_button := settings_button m; layout := layout m |}.

(** The application object: the oscillator with the Start and Stop
    buttons, and the rest of the menu. *)
Record App : Type := {
  core : BarOscApp;
  menu : Menu
}.

Definition set_core (c : BarOscApp) (s : App) : App :=
  {| core := c; menu := menu s |}.

Definition set_menu (m : Menu) (s : App) : App :=
  {| core := core s; menu := m |}.

(** A method of the application that reads or assigns the menu: as
    [method], on the whole application object. *)
Definition handler (A : Type) : Type :=
  App -> option (result A * App * list event).

Definition h_ret {A : Type} (x : A) : handler A :=
  fun s => Some (Ok x, s, []).

Definition h_seq {A B : Type} (m : handler A) (k : A -> handler B) : handler B :=
  fun s =>
    match m s with
    | None => None
    | Some (Raise e, s1, t1) => Some (Raise e, s1, t1)
    | Some (Ok x, s1, t1) =>
        match k x s1 with
        | None => None
        | Some (r, s2, t2) => Some (r, s2, (t1 ++ t2)%list)
        end
    end.

Declare Scope handler_scope.
Delimit Scope handler_scope with handler.
Bind Scope handler_scope with handler.

Notation "x <~ m ;; k" := (h_seq m (fun x => k))
  (at level 61, m at next level, right associativity) : handler_scope.
Notation "m ;;; k" := (h_seq m (fun _ => k))
  (at level 61, right associativity) : handler_scope.

Definition h_read {A : Type} (f : App -> A) : handler A :=
  fun s => Some (Ok (f s), s, []).

Definition h_assign (f : App -> App) : handler unit :=
  fun s => Some (Ok tt, f s, []).

Definition h_emit (e : event) : handler unit :=
  fun s => Some (Ok tt, s, [e]).

Definition h_lift {A : Type} (r : result A) : handler A :=
  fun s => Some (r, s, []).

(** A method that touches the oscillator and the Start and Stop buttons
    only, run on the application object. *)
Definition on_core {A : Type} (m : method A) : handler A :=
  fun s =>
    match m (core s) with
    | None => None
    | Some (r, c, t) => Some (r, set_core c s, t)
    end.

(** [self.osc.frequency]. *)
Definition osc_frequency (s : App) : number := frequency (osc (core s)).

(** The two dictionaries of [wave_change_menu]: the button and the
    callback of each wave type. *)
Definition wave_buttons (w : wave) (m : Menu) : MenuItem :=
  match w with
  | sine_wave => sine_wave_button m
  | square_wave => square_wave_button m
  | white_noise => white_noise_button m
  | pink_noise => pink_noise_button m
  end.

Definition wave_methods (w : wave) : menu_callback :=
  match w with
  | sine_wave => cb_set_sine_wave
  | square_wave => cb_set_square_wave
  | white_noise => cb_set_white_noise
  | pink_noise => cb_set_pink_noise
  end.

(** [wave_buttons[w].set_callback(cb)]. *)
Definition wave_buttons_set_callback (w : wave) (cb : option menu_callback)
    (m : Menu) : Menu :=
  match w with
  | sine_wave => set_sine_wave_button (set_callback cb (sine_wave_button m)) m
  | square_wave => set_square_wave_button (set_callback cb (square_wave_button m)) m
  | white_noise => set_white_noise_button (set_callback cb (white_noise_button m)) m
  | pink_noise => set_pink_noise_button (set_callback cb (pink_noise_button m)) m
  end.

Section Callbacks.
Context {libm : Libm}.
Local Open Scope handler_scope.

(** Define menu, buttons, sliders, for the amplitude and the frequency
    [__init__] has set.  The Start and Stop buttons, which [build_menu]
    creates with no callback, are in [BarOscApp]; this is the rest of
    the menu. *)
Definition build_menu (self_amplitude self_frequency : number) : result Menu :=
  amp_text <- amp_title_format self_amplitude ;;
  volume <- SliderMenuItem_init self_amplitude (Float 0.0) (Float 1.0)
              (Some cb_adj_amp) (200, 20) ;;
  freq_text <- freq_title_format self_frequency ;;
  value <- freq_to_slider self_frequency ;;
  lowest <- freq_to_slider (Int 20) ;;          (* 20Hz - 20kHz *)
  highest <- freq_to_slider (Int 20000) ;;
  pitch <- SliderMenuItem_init value lowest highest
             (Some cb_adj_freq) (200, 20) ;;
  Ok {| amp_title := {| title := amp_text; item_callback := None |};
        amp_slider := volume;
        sine_wave_button := {| title := "Sine Wave"; item_callback := None |};
        square_wave_button := {| title := "Square Wave";
                                 item_callback := Some cb_set_square_wave |};
        white_noise_button := {| title := "White Noise";
                                 item_callback := Some cb_set_white_noise |};
        pink_noise_button := {| title := "Pink Noise";
                                item_callback := Some cb_set_pink_noise |};
        freq_title := {| title := freq_text; item_callback := None |};
        freq_slider := pitch;
        octave_button := {| title := "Octave Walk";
                            item_callback := Some cb_octave_walk |};
        octave_thirds_button := {| title := "Octave Walk  ⅓";
                                   item_callback := Some cb_octave_walk_thirds |};
        noise_pan_button := {| title := "Noise Panning"; item_callback := None |};
        settings_button := {| title := "Settings..."; item_callback := None |};
        (* populate menu *)
        layout := [button item_start;
                   button item_stop;
                   separator;
                   button item_amp_title;
                   slider item_amp_slider;
                   separator;
                   button item_sine_wave;
                   button item_square_wave;
                   button item_white_noise;
                   button item_pink_noise;
                   separator;
                   button item_freq_title;
                   slider item_freq_slider;
                   separator;
                   button item_octave;
                   button item_octave_thirds;
                   button item_noise_pan;
                   separator;
                   button item_settings] |}.

(** [BarOscApp.__init__]: the initial settings, the menu, the menu of an
    idle oscillator, and the single oscillator of the application.  The
    object is built at once here: the menu first (a helper that raises
    ends the construction), the oscillator last; nothing in between reads
    the oscillator. *)
Definition BarOscApp_init : result App :=
  (* initial oscillator settings *)
  let self_samplerate := 44100 in
  let self_wave_type := sine_wave in
  let self_amplitude := Float 0.5 in
  let self_frequency := Int 440 in
  (* set up menu *)
  m <- build_menu self_amplitude self_frequency ;;
  (* single oscillator instance for the app *)
  let o := Oscillator_init self_samplerate self_wave_type
                           self_amplitude self_frequency in
  Ok {| core := osc_ready_menu {| osc := o; start_button := None;
                                  stop_button := None |};
        menu := m |}.

(** Menu change when selecting a new wave type. *)
Definition wave_change_menu (old_wave_type new_wave_type : wave) : handler unit :=
  h_assign (fun s => set_menu (wave_buttons_set_callback new_wave_type None (menu s)) s) ;;;
  h_assign (fun s => set_menu (wave_buttons_set_callback old_wave_type
                                 (Some (wave_methods old_wave_type)) (menu s)) s).

(** Sine Wave callback. *)
Definition set_sine_wave : handler unit :=
  (* update menu items *)
  w <~ h_read (fun s => wave_type (osc (core s))) ;;
  wave_change_menu w sine_wave ;;;
  (* update oscillator *)
  h_assign (fun s => set_core (set_osc (set_wave_type sine_wave (osc (core s))) (core s)) s).

(** Square Wave callback. *)
Definition set_square_wave : handler unit :=
  (* update menu items *)
  w <~ h_read (fun s => wave_type (osc (core s))) ;;
  wave_change_menu w square_wave ;;;
  (* update oscillator *)
  h_assign (fun s => set_core (set_osc (set_wave_type square_wave (osc (core s))) (core s)) s).

(** White Noise callback. *)
Definition set_white_noise : handler unit :=
  (* update menu items *)
  w <~ h_read (fun s => wave_type (osc (core s))) ;;
  wave_change_menu w white_noise ;;;
  (* update oscillator *)
  h_assign (fun s => set_core (set_osc (set_wave_type white_noise (osc (core s))) (core s)) s).

(** Pink Noise callback. *)
Definition set_pink_noise : handler unit :=
  (* update menu items *)
  w <~ h_read (fun s => wave_type (osc (core s))) ;;
  wave_change_menu w pink_noise ;;;
  (* update oscillator *)
  h_assign (fun s => set_core (set_osc (set_wave_type pink_noise (osc (core s))) (core s)) s).

(** Frequency slider callback. *)
Definition adj_freq : handler unit :=
  v <~ h_read (fun s => slider_value (freq_slider (menu s))) ;;
  frequency <~ h_lift (slider_to_freq (Float v)) ;;
  text <~ h_lift (freq_title_format frequency) ;;
  (* update title *)
  h_assign (fun s => set_menu (set_freq_title (set_title text (freq_title (menu s)))
                                 (menu s)) s) ;;;
  (* update oscillator *)
  h_assign (fun s => set_core (set_osc (set_frequency frequency (osc (core s))) (core s)) s) ;;;
  v <~ h_read (fun s => slider_value (freq_slider (menu s))) ;;
  f <~ h_read osc_frequency ;;
  slider_text <~ h_lift (num_str (Float v)) ;;
  freq_text <~ h_lift (num_str f) ;;
  h_emit (Print ("SLIDER ===> " ++ slider_text ++ ", FREQ ===> " ++ freq_text)).

(** Amplitude slider callback. *)
Definition adj_amp : handler unit :=
  v <~ h_read (fun s => slider_value (amp_slider (menu s))) ;;
  text <~ h_lift (amp_title_format (Float v)) ;;
  (* update title *)
  h_assign (fun s => set_menu (set_amp_title (set_title text (amp_title (menu s)))
                                 (menu s)) s) ;;;
  (* update oscillator *)
  v <~ h_read (fun s => slider_value (amp_slider (menu s))) ;;
  h_assign (fun s => set_core (set_osc (set_amplitude (Float v) (osc (core s))) (core s)) s) ;;;
  v <~ h_read (fun s => slider_value (amp_slider (menu s))) ;;
  a <~ h_read (fun s => amplitude (osc (core s))) ;;
  slider_text <~ h_lift (num_str (Float v)) ;;
  amp_text <~ h_lift (num_str a) ;;
  h_emit (Print ("SLIDER ===> " ++ slider_text ++ ", AMP ===> " ++ amp_text)).

(** ** The event loop

    [BarOscApp.run] hands control to rumps, which is not part of the
    program.  What it does with the menu: an item that has a callback calls
    it when the user picks it, an item without a callback is disabled; a
    slider the user moves takes the new value and calls its callback; an
    exception a callback raises is logged, and the loop goes on. *)

Definition call_callback (c : callback) : method unit :=
  match c with
  | cb_start_osc => start_osc
  | cb_stop_osc => stop_osc
  end.

(** The bound method a callback of the menu stands for; [fuel] bounds the
    loop of a sweep. *)
Definition call_menu_callback (fuel : nat) (c : menu_callback) : handler unit :=
  match c with
  | cb_adj_amp => adj_amp
  | cb_set_sine_wave => set_sine_wave
  | cb_set_square_wave => set_square_wave
  | cb_set_white_noise => set_white_noise
  | cb_set_pink_noise => set_pink_noise
  | cb_adj_freq => adj_freq
  | cb_octave_walk => on_core (octave_walk fuel)
  | cb_octave_walk_thirds => on_core (octave_walk_thirds fuel)
  end.

Definition menu_items (i : menu_item) (m : Menu) : option MenuItem :=
  match i with
  | item_start | item_stop => None
  | item_amp_title => Some (amp_title m)
  | item_sine_wave => Some (sine_wave_button m)
  | item_square_wave => Some (square_wave_button m)
  | item_white_noise => Some (white_noise_button m)
  | item_pink_noise => Some (pink_noise_button m)
  | item_freq_title => Some (freq_title m)
  | item_octave => Some (octave_button m)
  | item_octave_thirds => Some (octave_thirds_button m)
  | item_noise_pan => Some (noise_pan_button m)
  | item_settings => Some (settings_button m)
  end.

(** What the user does with the menu. *)
Inductive gesture : Type :=
| click (i : menu_item)                (* picks a menu item *)
| slide (i : slider_item) (v : float). (* moves a slider to a value *)

(** The callback of an item, as it is set when the item is picked. *)
Definition click_item (fuel : nat) (i : menu_item) : handler unit :=
  fun s =>
    match i with
    | item_start =>
        match start_button (core s) with
        | Some c => on_core (call_callback c) s
        | None => h_ret tt s
        end
    | item_stop =>
        match stop_button (core s) with
        | Some c => on_core (call_callback c) s
        | None => h_ret tt s
        end
    | _ =>
        match menu_items i (menu s) with
        | Some {| item_callback := Some c |} => call_menu_callback fuel c s
        | _ => h_ret tt s
        end
    end.

Definition slide_item (fuel : nat) (i : slider_item) (v : float) : handler unit :=
  match i with
  | item_amp_slider =>
      h_assign (fun s => set_menu (set_amp_slider (set_value v (amp_slider (menu s)))
                                     (menu s)) s) ;;;
      c <~ h_read (fun s => slider_callback (amp_slider (menu s))) ;;
      match c with
      | Some c => call_menu_callback fuel c
      | None => h_ret tt
      end
  | item_freq_slider =>
      h_assign (fun s => set_menu (set_freq_slider (set_value v (freq_slider (menu s)))
                                     (menu s)) s) ;;;
      c <~ h_read (fun s => slider_callback (freq_slider (menu s))) ;;
      match c with
      | Some c => call_menu_callback fuel c
      | None => h_ret tt
      end
  end.

Definition perform (fuel : nat) (g : gesture) : handler unit :=
  match g with
  | click i => click_item fuel i
  | slide i v => slide_item fuel i v
  end.

(** The event loop on a list of gestures: the application after the last
    of them and all the events, or [None] when a sweep runs out of
    fuel. *)
Fixpoint run (fuel : nat) (gestures : list gesture) (s : App)
  : option (App * list event) :=
  match gestures with
  | [] => Some (s, [])
  | g :: rest =>
      match perform fuel g s with
      | None => None
      | Some (_, s1, t1) =>
          match run fuel rest s1 with
          | None => None
          | Some (s2, t2) => Some (s2, (t1 ++ t2)%list)
          end
      end
  end.

End Callbacks.
(** ** Vocabulary of the menu properties *)

(** The misuses of the oscillator reported during a run, in order. *)
Definition misuses (t : list event) : list string :=
  flat_map (fun e => match e with Misuse m => [m] | _ => [] end) t.

(** The menu entry of the button of a wave type. *)
Definition wave_items (w : wave) : menu_item :=
  match w with
  | sine_wave => item_sine_wave
  | square_wave => item_square_wave
  | white_noise => item_white_noise
  | pink_noise => item_pink_noise
  end.

(** The state of the application where a sweep tests its condition: a
    sine wave, idle, at a frequency that is a float. *)
Definition sweeping (sr : Z) (amp : number) (sb pb : option callback)
    (f : float) : BarOscApp :=
  {| osc := {| samplerate := sr; wave_type := sine_wave; amplitude := amp;
               frequency := Float f; stream := None |};
     start_button := sb; stop_button := pb |}.

Definition wave_eqb (a b : wave) : bool :=
  match a, b with
  | sine_wave, sine_wave
  | square_wave, square_wave
  | white_noise, white_noise
  | pink_noise, pink_noise => true
  | _, _ => false
  end.

(** The Start and Stop buttons tell whether the oscillator streams: Start
    alone is enabled while it is idle, Stop alone while it streams. *)
Definition menu_reflects_stream (a : BarOscApp) : Prop :=
  match stream (osc a) with
  | None => start_button a = Some cb_start_osc /\ stop_button a = None
  | Some _ => start_button a = None /\ stop_button a = Some cb_stop_osc
  end.

(** The wave type buttons tell the wave type of the oscillator: its
    button is disabled, and each other button selects its own wave
    type. *)
Definition wave_buttons_reflect_wave (s : App) : Prop :=
  forall w,
    item_callback (wave_buttons w (menu s)) =
    if wave_eqb w (wave_type (osc (core s))) then None
    else Some (wave_methods w).

(** The two titles are the texts of the frequency and of the amplitude of
    the oscillator, and the volume slider is at its amplitude. *)
Definition titles_reflect_oscillator {libm : Libm} (s : App) : Prop :=
  freq_title_format (frequency (osc (core s))) = Ok (title (freq_title (menu s))) /\
  amp_title_format (amplitude (osc (core s))) = Ok (title (amp_title (menu s))) /\
  Float (slider_value (amp_slider (menu s))) = amplitude (osc (core s)).

(** The settings no callback changes for good: the sample rate, and a
    frequency that is a whole number of Hz. *)
Definition settings_at_rest (o : Oscillator) : Prop :=
  samplerate o = 44100 /\ exists k, frequency o = Int k.

(** The items whose callback is never set again are as [build_menu]
    created them; Noise Panning and Settings have no callback. *)
Definition fixed_items {libm : Libm} (m : Menu) : Prop :=
  item_callback (amp_title m) = None /\
  slider_callback (amp_slider m) = Some cb_adj_amp /\
  min_value (amp_slider m) = 0%float /\
  max_value (amp_slider m) = 1%float /\
  item_callback (freq_title m) = None /\
  slider_callback (freq_slider m) = Some cb_adj_freq /\
  freq_to_slider (Int 20) = Ok (Float (min_value (freq_slider m))) /\
  freq_to_slider (Int 20000) = Ok (Float (max_value (freq_slider m))) /\
  octave_button m =
    {| title := "Octave Walk"; item_callback := Some cb_octave_walk |} /\
  octave_thirds_button m =
    {| title := "Octave Walk  ⅓"; item_callback := Some cb_octave_walk_thirds |} /\
  noise_pan_button m = {| title := "Noise Panning"; item_callback := None |} /\
  settings_button m = {| title := "Settings..."; item_callback := None |}.

(** What holds of the application between two callbacks. *)
Record consistent {libm : Libm} (s : App) : Prop := {
  consistent_menu : menu_reflects_stream (core s);
  consistent_wave : wave_buttons_reflect_wave s;
  consistent_titles : titles_reflect_oscillator s;
  consistent_settings : settings_at_rest (osc (core s));
  consistent_items : fixed_items (menu s)
}.

(** * Properties *)

(** ** The calibration sweeps *)

Lemma played_app (t1 t2 : list event) :
  played (t1 ++ t2) = (played t1 ++ played t2)%list.
Proof. unfold played. apply flat_map_app. Qed.

Lemma played_stop_first (o : Oscillator) : played (stop_first o) = [].
Proof. unfold stop_first. destruct (stream o); reflexivity. Qed.

Lemma played_sweep_steps (o : Oscillator) (fs : list float) :
  played (flat_map (sweep_step o) fs) = map Float fs.
Proof.
  induction fs as [|f fs IH]; [reflexivity|].
  cbn [flat_map map]. rewrite played_app, IH. reflexivity.
Qed.

(** The whole run of [octave_walk], on any application state and with any
    fuel from 8 up (seven turns of the loop and the test that ends it). *)
Lemma octave_walk_run (a : BarOscApp) (k : nat) :
  octave_walk (8 + k) a =
  Some (Ok tt,
        set_osc (set_stream None (osc a))
                (match stream (osc a) with
                 | Some _ => osc_ready_menu a
                 | None => a
                 end),
        (stop_first (osc a)
         ++ flat_map (sweep_step (osc a)) (geometric 7 27.5 2))%list).
Proof.
  destruct a as [[sr w amp f [h|]] sb pb]; vm_compute; reflexivity.
Qed.

(** With less fuel the loop does not finish: it takes exactly 7 turns. *)
Lemma octave_walk_needs_fuel (a : BarOscApp) (n : nat) :
  (n <= 7)%nat -> octave_walk n a = None.
Proof.
  intros Hn.
  destruct a as [[sr w amp f [h|]] sb pb];
    do 8 (destruct n as [|n]; [vm_compute; reflexivity|]); lia.
Qed.

(** [cube_root_of_two] is the double nearest to the cube root of two: it
    is [m / 2 ^ 52] with [(m - 1/2) ^ 3 < 2 * (2 ^ 52) ^ 3 < (m + 1/2) ^ 3]. *)
Lemma cube_root_of_two_nearest :
  Prim2SF cube_root_of_two = S754_finite false 5674179970822795 (-52) /\
  (2 * 5674179970822795 - 1) ^ 3 < 2 * (2 * 2 ^ 52) ^ 3
    < (2 * 5674179970822795 + 1) ^ 3.
Proof. split; [|split]; vm_compute; reflexivity. Qed.

(** C1. On every application state, [octave_walk] ends normally; it first
    stops the oscillator if it is streaming, then plays exactly 27.5, 55,
    110, 220, 440, 880 and 1760 Hz in that order, one play / sleep / stop
    step each, every frequency the double of the one before; afterwards
    the wave type and the frequency are those from before the sweep, and
    the amplitude is unchanged. *)
Theorem octave_walk_plays_octaves (a : BarOscApp) (k : nat) :
  exists a' t,
    octave_walk (8 + k) a = Some (Ok tt, a', t) /\
    t = (stop_first (osc a)
         ++ flat_map (sweep_step (osc a))
              [27.5; 55; 110; 220; 440; 880; 1760]%float)%list /\
    played t = map Float [27.5; 55; 110; 220; 440; 880; 1760]%float /\
    [27.5; 55; 110; 220; 440; 880; 1760]%float = geometric 7 27.5 2 /\
    wave_type (osc a') = wave_type (osc a) /\
    frequency (osc a') = frequency (osc a) /\
    amplitude (osc a') = amplitude (osc a).
Proof.
  eexists; eexists. split; [apply octave_walk_run|].
  split; [reflexivity|].
  split.
  - rewrite played_app, played_stop_first, played_sweep_steps. reflexivity.
  - split; [reflexivity|]. destruct (stream (osc a)); repeat split.
Qed.

Section ThirdsProperties.
Context {libm : Libm}.

(** The C library's [pow] rounds [2 ** (1/3)] correctly. *)
Hypothesis pow_third : two_pow_third = cube_root_of_two.

(** The whole run of [octave_walk_thirds], with any fuel from 20 up. *)
Lemma octave_walk_thirds_run (a : BarOscApp) (k : nat) :
  octave_walk_thirds (20 + k) a =
  Some (Ok tt,
        set_osc (set_stream None (osc a))
                (match stream (osc a) with
                 | Some _ => osc_ready_menu a
                 | None => a
                 end),
        (stop_first (osc a)
         ++ flat_map (sweep_step (osc a)) (geometric 19 27.5 cube_root_of_two))%list).
Proof.
  unfold octave_walk_thirds. rewrite pow_third.
  destruct a as [[sr w amp f [h|]] sb pb]; vm_compute; reflexivity.
Qed.

(** With less fuel the loop does not finish: it takes exactly 19 turns. *)
Lemma octave_walk_thirds_needs_fuel (a : BarOscApp) (n : nat) :
  (n <= 19)%nat -> octave_walk_thirds n a = None.
Proof.
  intros Hn. unfold octave_walk_thirds. rewrite pow_third.
  destruct a as [[sr w amp f [h|]] sb pb];
    do 20 (destruct n as [|n]; [vm_compute; reflexivity|]); lia.
Qed.

(** C3. With a C library whose [pow] rounds [2**(1/3)] correctly, on
    every application state [octave_walk_thirds] ends normally after
    exactly 19 play / sleep / stop steps: the first at 27.5 Hz, each next
    frequency the binary64 product of the one before by [2**(1/3)], all
    of them [<= 1760], the last one 1760 Hz itself, and the product after
    it above 1760. *)
Theorem octave_walk_thirds_plays_19_steps (a : BarOscApp) (k : nat) :
  exists a' t,
    octave_walk_thirds (20 + k) a = Some (Ok tt, a', t) /\
    t = (stop_first (osc a)
         ++ flat_map (sweep_step (osc a))
              (geometric 19 27.5 two_pow_third))%list /\
    played t = map Float (geometric 19 27.5 two_pow_third) /\
    List.length (played t) = 19%nat /\
    hd_error (played t) = Some (Float 27.5) /\
    last (played t) (Int 0) = Float 1760 /\
    forallb (fun f => num_leb f (Int 1760)) (played t) = true /\
    (exists f, nth_error (geometric 20 27.5 two_pow_third) 19 = Some f /\
               num_leb (Float f) (Int 1760) = false).
Proof.
  eexists; eexists. split; [apply octave_walk_thirds_run|].
  rewrite pow_third. split; [reflexivity|].
  rewrite played_app, played_stop_first, played_sweep_steps.
  split; [reflexivity|].
  do 4 (split; [vm_compute; reflexivity|]).
  eexists. split; vm_compute; reflexivity.
Qed.

(** C9. After either sweep the oscillator is idle, whether or not it was
    streaming when the sweep was invoked: the wave type and the frequency
    are restored, the stream is not. *)
Theorem sweeps_leave_oscillator_idle (a : BarOscApp) (k : nat) :
  (exists a' t,
      octave_walk (8 + k) a = Some (Ok tt, a', t) /\
      stream (osc a') = None /\
      wave_type (osc a') = wave_type (osc a) /\
      frequency (osc a') = frequency (osc a)) /\
  (exists a' t,
      octave_walk_thirds (20 + k) a = Some (Ok tt, a', t) /\
      stream (osc a') = None /\
      wave_type (osc a') = wave_type (osc a) /\
      frequency (osc a') = frequency (osc a)).
Proof.
  split.
  - eexists; eexists. split; [apply octave_walk_run|].
    destruct (stream (osc a)); repeat split.
  - eexists; eexists. split; [apply octave_walk_thirds_run|].
    destruct (stream (osc a)); repeat split.
Qed.

End ThirdsProperties.

(** The reference C library rounds [2**(1/3)] correctly. *)
Lemma ref_libm_pow_third : two_pow_third (libm := ref_libm) = cube_root_of_two.
Proof. vm_compute; reflexivity. Qed.

(** The 1/3-octave sweep of the application as it starts. *)
Lemma octave_walk_thirds_plays_19_steps_witness :
  exists a' t,
    octave_walk_thirds (libm := ref_libm) 20 initial_app = Some (Ok tt, a', t) /\
    List.length (played t) = 19%nat /\
    last (played t) (Int 0) = Float 1760.
Proof.
  destruct (@octave_walk_thirds_plays_19_steps ref_libm ref_libm_pow_third
              initial_app 0)
    as [a' [t [Hrun [_ [_ [Hlen [_ [Hlast _]]]]]]]].
  exists a', t. split; [exact Hrun|]. split; [exact Hlen | exact Hlast].
Defined.

(** Both sweeps on an application that is streaming a square wave. *)
Lemma sweeps_leave_oscillator_idle_witness :
  stream (osc start_osc_state) <> None /\
  (exists a' t,
      octave_walk 8 start_osc_state = Some (Ok tt, a', t) /\
      stream (osc a') = None) /\
  (exists a' t,
      octave_walk_thirds (libm := ref_libm) 20 start_osc_state
      = Some (Ok tt, a', t) /\
      stream (osc a') = None).
Proof.
  destruct (@sweeps_leave_oscillator_idle ref_libm ref_libm_pow_third
              start_osc_state 0)
    as [[a1 [t1 [H1 [S1 _]]]] [a2 [t2 [H2 [S2 _]]]]].
  split; [discriminate|]. split.
  - exists a1, t1. split; [exact H1 | exact S1].
  - exists a2, t2. split; [exact H2 | exact S2].
Defined.

(** ** Facts on binary64 comparisons *)

Lemma Prim2SF_zero : Prim2SF 0 = S754_zero false.
Proof. vm_compute; reflexivity. Qed.

(** Against the integer zero, the exact mixed comparison is the
    comparison of floats. *)
Lemma compare_float_Z_0 (x : float) :
  compare_float_Z x 0 = SFcompare (Prim2SF x) (S754_zero false).
Proof.
  unfold compare_float_Z.
  destruct (Prim2SF x) as [s|s| |s m e]; try reflexivity.
  cbn [SFcompare]. f_equal.
  destruct (0 <=? e) eqn:He.
  - apply Z.leb_le in He.
    assert (0 < 2 ^ e) by (apply Z.pow_pos_nonneg; lia).
    destruct s; [apply Z.compare_lt_iff | apply Z.compare_gt_iff]; nia.
  - rewrite Z.mul_0_l. destruct s; reflexivity.
Qed.

Lemma num_leb_Float_0 (x : float) :
  num_leb (Float x) (Int 0) = (x <=? 0)%float.
Proof.
  unfold num_leb, num_compare. rewrite compare_float_Z_0, leb_spec, Prim2SF_zero.
  reflexivity.
Qed.

Lemma num_ltb_0_Float (x : float) :
  num_ltb (Int 0) (Float x) = (0 <? x)%float.
Proof.
  unfold num_ltb, num_compare. rewrite compare_float_Z_0, ltb_spec, Prim2SF_zero.
  destruct (Prim2SF x) as [s|s| |s m e]; try reflexivity; destruct s; reflexivity.
Qed.

(** A float is not both positive and [<= 0]. *)
Lemma ltb_0_not_leb_0 (x : float) :
  (0 <? x)%float = true -> (x <=? 0)%float = false.
Proof.
  rewrite ltb_spec, leb_spec, Prim2SF_zero.
  destruct (Prim2SF x) as [s|s| |s m e]; try discriminate; destruct s;
    try discriminate; reflexivity.
Qed.

Lemma num_ltb_Float (x y : float) :
  num_ltb (Float x) (Float y) = (x <? y)%float.
Proof.
  unfold num_ltb, num_compare. rewrite compare_spec, ltb_spec.
  unfold SFltb. destruct (SFcompare (Prim2SF x) (Prim2SF y)) as [[ | | ]|]; reflexivity.
Qed.

Lemma num_eqb_Float (x y : float) :
  num_eqb (Float x) (Float y) = (x =? y)%float.
Proof.
  unfold num_eqb, num_compare. rewrite compare_spec, eqb_spec.
  unfold SFeqb. destruct (SFcompare (Prim2SF x) (Prim2SF y)) as [[ | | ]|]; reflexivity.
Qed.

(** A float equal to zero is a zero of one sign or the other. *)
Lemma eqb_0_zero (x : float) :
  (x =? 0)%float = true -> exists s, Prim2SF x = S754_zero s.
Proof.
  rewrite eqb_spec, Prim2SF_zero.
  destruct (Prim2SF x) as [s|s| |s m e]; try discriminate.
  - intros _. exists s. reflexivity.
  - destruct s; discriminate.
  - destruct s; discriminate.
Qed.

Lemma zero_eqb_0 (x : float) (s : bool) :
  Prim2SF x = S754_zero s -> (x =? 0)%float = true.
Proof. intros H. rewrite eqb_spec, H, Prim2SF_zero. reflexivity. Qed.

(** A finite float is a zero or a finite number. *)
Lemma is_finite_cases (x : float) :
  is_finite x = true ->
  (exists s, Prim2SF x = S754_zero s) \/ (exists s m e, Prim2SF x = S754_finite s m e).
Proof.
  unfold is_finite. intros H.
  apply negb_true_iff, orb_false_iff in H. destruct H as [Hn Hi].
  unfold Prim2SF. rewrite Hn, Hi.
  destruct (is_zero x); [left; eexists; reflexivity|].
  destruct (Z.frexp x) as [r ex].
  destruct (shr_fexp prec emax _ _ _) as [sh e'].
  destruct (shr_m sh); [left|right|left]; repeat eexists.
Qed.

(** ** Facts on rounding to decimals *)

Lemma digits2_pos_gt (m : positive) : Z.pos m < 2 ^ Z.pos (digits2_pos m).
Proof.
  induction m as [m IH|m IH|]; cbn [digits2_pos];
    try (rewrite Pos2Z.inj_succ, Z.pow_succ_r by lia; lia).
  vm_compute; reflexivity.
Qed.

(** Rounding a zero gives it back. *)
Lemma float_round_ndigits_zero (y : float) (n : Z) :
  (y =? 0)%float = true -> (float_round_ndigits y n =? 0)%float = true.
Proof.
  intros H. destruct (eqb_0_zero y H) as [s Hs].
  unfold float_round_ndigits. rewrite Hs. exact H.
Qed.

(** A float below 0.05 in magnitude rounds, at one decimal, to a zero (of
    its own sign). *)
Lemma float_round_1_small (y : float) :
  (abs y <? 0.05)%float = true -> (float_round_ndigits y 1 =? 0)%float = true.
Proof.
  intros H. rewrite ltb_spec, abs_spec in H.
  replace (Prim2SF 0.05) with (S754_finite false 7205759403792794 (-57)) in H
    by (vm_compute; reflexivity).
  pose proof (Prim2SF_valid y) as Hv.
  unfold float_round_ndigits.
  destruct (Prim2SF y) as [s|s| |s m e] eqn:Hy; try discriminate.
  - apply (zero_eqb_0 y s Hy).
  - assert (He : e <= -57 /\ 20 * Z.pos m <= 2 ^ (- e)).
    { cbn [SFabs] in H. unfold SFltb in H. cbn [SFcompare] in H.
      cbn [valid_binary] in Hv. unfold bounded, canonical_mantissa in Hv.
      apply andb_true_iff in Hv. destruct Hv as [Hc _].
      apply Z.eqb_eq in Hc. unfold fexp in Hc.
      destruct (Z.compare_spec e (-57)) as [E|E|E]; try discriminate.
      - subst e. split; [lia|].
        rewrite Pos.compare_cont_spec in H. cbn [Pos.switch_Eq] in H.
        destruct (Pos.compare_spec m 7205759403792794) as [E|E|E]; try discriminate.
        apply Pos2Z.pos_lt_pos in E.
        change (2 ^ (- -57)) with 144115188075855872. lia.
      - split; [lia|].
        pose proof (digits2_pos_gt m) as Hm.
        assert (Hd : Z.pos (digits2_pos m) <= 53) by (unfold prec in Hc; lia).
        assert (2 ^ Z.pos (digits2_pos m) <= 2 ^ 53)
          by (apply Z.pow_le_mono_r; lia).
        assert (2 ^ 58 <= 2 ^ (- e)) by (apply Z.pow_le_mono_r; lia).
        change (2 ^ 53) with 9007199254740992 in *.
        change (2 ^ 58) with 288230376151711744 in *. lia. }
    destruct He as [He Hm].
    unfold fraction_of. replace (0 <=? e) with false by (symmetry; apply Z.leb_gt; lia).
    assert (Hq : div_half_even (Z.pos m * 10 ^ 1) (2 ^ (- e)) = 0).
    { unfold div_half_even. change (10 ^ 1) with 10.
      assert (0 < 2 ^ (- e)) by (apply Z.pow_pos_nonneg; lia).
      rewrite Z.div_small, Z.mod_small by lia.
      destruct (Z.compare_spec (2 * (Z.pos m * 10)) (2 ^ (- e))); try reflexivity; lia. }
    rewrite Hq. destruct s; vm_compute; reflexivity.
Qed.

(** The product of 20 and a zero is a zero. *)
Lemma mul_20_zero (l : float) :
  (l =? 0)%float = true -> (20 * l =? 0)%float = true.
Proof.
  intros H. destruct (eqb_0_zero l H) as [s Hs].
  apply (zero_eqb_0 _ s). rewrite mul_spec, Hs. vm_compute; reflexivity.
Qed.

(** ** The helper functions *)

Section HelperProperties.
Context {libm : Libm}.

Lemma num_leb_Int_0 (z : Z) : num_leb (Int z) (Int 0) = (z <=? 0).
Proof.
  unfold num_leb, num_compare, Z.leb. destruct (z ?= 0); reflexivity.
Qed.

(** The logarithms raise on a number [<= 0] and on no other. *)
Lemma loghelper_nonpositive (func : float -> float) (arg : number) :
  num_leb arg (Int 0) = true -> loghelper func arg = Raise ValueError.
Proof.
  destruct arg as [z|x]; cbn [loghelper].
  - rewrite num_leb_Int_0. intros ->. reflexivity.
  - rewrite num_leb_Float_0. intros ->. reflexivity.
Qed.

Lemma loghelper_returns (func : float -> float) (arg : number) :
  num_leb arg (Int 0) = false -> exists l, loghelper func arg = Ok (Float l).
Proof.
  destruct arg as [z|x]; cbn [loghelper].
  - rewrite num_leb_Int_0. intros ->.
    destruct (float_of_Z z); [eexists; reflexivity|].
    destruct (long_frexp z). eexists; reflexivity.
  - rewrite num_leb_Float_0. intros ->. eexists; reflexivity.
Qed.

Lemma loghelper_Float (func : float -> float) (x : float) :
  (x <=? 0)%float = false -> loghelper func (Float x) = Ok (Float (func x)).
Proof. cbn [loghelper]. intros ->. reflexivity. Qed.

(** A positive number is not [<= 0]. *)
Lemma positive_not_nonpositive (n : number) :
  num_ltb (Int 0) n = true -> num_leb n (Int 0) = false.
Proof.
  destruct n as [z|x].
  - rewrite num_leb_Int_0. unfold num_ltb, num_compare.
    destruct (Z.compare_spec 0 z); try discriminate. intros _. apply Z.leb_gt. lia.
  - rewrite num_ltb_0_Float, num_leb_Float_0. apply ltb_0_not_leb_0.
Qed.

Lemma num_mul_20 (l : float) : num_mul (Int 20) (Float l) = Ok (Float (20 * l)).
Proof. reflexivity. Qed.

(** What [amp_title_format] prints once the logarithm has returned [l]. *)
Lemma amp_title_format_of_log (amp : number) (l : float) :
  math_log10 amp = Ok (Float l) ->
  amp_title_format amp =
  Ok ("Volume: "
      ++ (if (float_round_ndigits (20 * l) 1 =? 0)%float then "-0.0"
          else float_repr (float_round_ndigits (20 * l) 1))
      ++ " dBFS").
Proof.
  intros Hl. unfold amp_title_format. rewrite Hl.
  cbn [bind try_except]. rewrite num_mul_20.
  cbn [bind try_except round_ndigits value_eqb]. rewrite num_eqb_Float.
  destruct (float_round_ndigits (20 * l) 1 =? 0)%float; reflexivity.
Qed.

(** C5. For every amplitude [amp <= 0] the math domain error of the
    logarithm is caught: [amp_title_format] returns normally, with the
    sentinel. *)
Theorem amp_title_format_nonpositive (amp : number) :
  num_leb amp (Int 0) = true ->
  amp_title_format amp = Ok "Volume: -∞ dBFS".
Proof.
  intros H. unfold amp_title_format, math_log10.
  rewrite (loghelper_nonpositive _ _ H). reflexivity.
Qed.

(** C4. For every amplitude [amp > 0] the logarithm returns some [l] and
    [amp_title_format] returns ["Volume: {dBFS} dBFS"], [dBFS] being
    [round(20 * l, 1)] as [repr] prints it, except that a [dBFS] equal to
    zero is printed ["-0.0"]; in particular, with a C library whose
    [log10(1.0)] is zero, [amp_title_format(1.0)] is
    ["Volume: -0.0 dBFS"]. *)
Theorem amp_title_format_positive (amp : number) :
  num_ltb (Int 0) amp = true ->
  (exists l,
      math_log10 amp = Ok (Float l) /\
      amp_title_format amp =
      Ok ("Volume: "
          ++ (if (float_round_ndigits (20 * l) 1 =? 0)%float then "-0.0"
              else float_repr (float_round_ndigits (20 * l) 1))
          ++ " dBFS")) /\
  ((libm_log10 1 =? 0)%float = true ->
   amp_title_format (Float 1) = Ok "Volume: -0.0 dBFS").
Proof.
  intros Hpos. split.
  - destruct (loghelper_returns libm_log10 amp (positive_not_nonpositive _ Hpos))
      as [l Hl].
    exists l. split; [exact Hl|]. apply amp_title_format_of_log. exact Hl.
  - intros H1.
    rewrite (amp_title_format_of_log (Float 1) (libm_log10 1))
      by (apply loghelper_Float; vm_compute; reflexivity).
    rewrite (float_round_ndigits_zero _ 1 (mul_20_zero _ H1)). reflexivity.
Qed.

(** C10. Whenever the logarithm returns and the decibel value rounds to a
    zero at one decimal, of either sign, [amp_title_format] returns
    ["Volume: -0.0 dBFS"]; this is the case of every amplitude whose
    [20 * log10(amp)] is below 0.05 in magnitude, amplitudes above 1.0
    included. *)
Theorem amp_title_format_rounded_zero (amp : number) (l : float) :
  math_log10 amp = Ok (Float l) ->
  ((float_round_ndigits (20 * l) 1 =? 0)%float = true ->
   amp_title_format amp = Ok "Volume: -0.0 dBFS") /\
  ((abs (20 * l) <? 0.05)%float = true ->
   amp_title_format amp = Ok "Volume: -0.0 dBFS").
Proof.
  intros Hl.
  assert (Hz : (float_round_ndigits (20 * l) 1 =? 0)%float = true ->
               amp_title_format amp = Ok "Volume: -0.0 dBFS").
  { intros H0. rewrite (amp_title_format_of_log amp l Hl), H0. reflexivity. }
  split; [exact Hz|].
  intros Hs. apply Hz, float_round_1_small, Hs.
Qed.

End HelperProperties.

Lemma amp_title_format_nonpositive_witness :
  num_leb (Float 0) (Int 0) = true /\
  amp_title_format (libm := ref_libm) (Float 0) = Ok "Volume: -∞ dBFS".
Proof.
  split; [vm_compute; reflexivity|].
  apply (@amp_title_format_nonpositive ref_libm). vm_compute; reflexivity.
Defined.

(** More amplitudes that are [<= 0]: the integer zero, the negative zero,
    a negative number and minus infinity. *)
Lemma amp_title_format_nonpositive_examples :
  amp_title_format (libm := ref_libm) (Int 0) = Ok "Volume: -∞ dBFS" /\
  amp_title_format (libm := ref_libm) (Float (-0)) = Ok "Volume: -∞ dBFS" /\
  amp_title_format (libm := ref_libm) (Float (-1)) = Ok "Volume: -∞ dBFS" /\
  amp_title_format (libm := ref_libm) (Float neg_infinity) = Ok "Volume: -∞ dBFS".
Proof. repeat split; vm_compute; reflexivity. Qed.

Lemma amp_title_format_positive_witness :
  num_ltb (Int 0) (Float 0.5) = true /\
  amp_title_format (libm := ref_libm) (Float 0.5) = Ok "Volume: -6.0 dBFS" /\
  amp_title_format (libm := ref_libm) (Float 1) = Ok "Volume: -0.0 dBFS".
Proof.
  assert (Hp : num_ltb (Int 0) (Float 0.5) = true) by (vm_compute; reflexivity).
  destruct (@amp_title_format_positive ref_libm (Float 0.5) Hp) as [[l [Hl H]] H1].
  split; [exact Hp|]. split.
  - rewrite H. vm_compute in Hl. injection Hl as <-. vm_compute; reflexivity.
  - apply H1. vm_compute; reflexivity.
Defined.

(** An amplitude above 1.0 whose decibel value rounds to the positive
    zero. *)
Lemma amp_title_format_rounded_zero_witness :
  num_ltb (Int 1) (Float 1.001) = true /\
  Prim2SF (float_round_ndigits (20 * RefLibm.log10 1.001) 1) = S754_zero false /\
  amp_title_format (libm := ref_libm) (Float 1.001) = Ok "Volume: -0.0 dBFS".
Proof.
  split; [vm_compute; reflexivity|]. split; [vm_compute; reflexivity|].
  assert (Hl : math_log10 (libm := ref_libm) (Float 1.001)
               = Ok (Float (RefLibm.log10 1.001))) by (vm_compute; reflexivity).
  apply (proj2 (@amp_title_format_rounded_zero ref_libm _ _ Hl)).
  vm_compute; reflexivity.
Defined.

(** An amplitude below 1.0 whose decibel value rounds to the negative
    zero. *)
Lemma amp_title_format_negative_zero :
  Prim2SF (float_round_ndigits (20 * RefLibm.log10 0.999) 1) = S754_zero true /\
  amp_title_format (libm := ref_libm) (Float 0.999) = Ok "Volume: -0.0 dBFS".
Proof. split; vm_compute; reflexivity. Qed.

Lemma num_geb_not_ltb (a b : number) :
  num_geb a b = true -> num_ltb a b = false.
Proof.
  unfold num_geb, num_ltb. destruct (num_compare a b) as [[ | | ]|];
    try discriminate; reflexivity.
Qed.

Lemma num_mul_Float_r (a : number) (x y : float) :
  to_float a = Ok x -> num_mul a (Float y) = Ok (Float (x * y)).
Proof.
  intros Hx. destruct a as [z|f]; unfold num_mul; rewrite Hx; reflexivity.
Qed.

(** The digit limit of the conversion of an int to text is above every
    int that converts to a float, and above 10000. *)
Lemma max_str_digits_large : 2 ^ 1024 < 10 ^ max_str_digits.
Proof. vm_compute; reflexivity. Qed.

Lemma int_str_limit_eq : int_str_limit = 10 ^ max_str_digits.
Proof. vm_compute; reflexivity. Qed.

Lemma int_str_returns (z : Z) :
  - 10 ^ max_str_digits < z < 10 ^ max_str_digits -> int_str z = Ok (int_repr z).
Proof.
  intros Hz. unfold int_str. rewrite int_str_limit_eq.
  destruct (Z.leb_spec (10 ^ max_str_digits) (Z.abs z)) as [H|H]; [lia | reflexivity].
Qed.

Lemma int_str_raises (z : Z) :
  10 ^ max_str_digits <= Z.abs z -> int_str z = Raise ValueError.
Proof.
  intros Hz. unfold int_str. rewrite int_str_limit_eq.
  destruct (Z.leb_spec (10 ^ max_str_digits) (Z.abs z)) as [H|H]; [reflexivity | lia].
Qed.

Lemma num_ltb_Int (x y : Z) : num_ltb (Int x) (Int y) = (x <? y).
Proof. unfold num_ltb, num_compare, Z.ltb. destruct (x ?= y); reflexivity. Qed.

Lemma num_geb_Int (x y : Z) : num_geb (Int x) (Int y) = (y <=? x).
Proof.
  unfold num_geb, num_compare, Z.leb. rewrite (Z.compare_antisym x y).
  destruct (x ?= y); reflexivity.
Qed.

(** What [freq_title_format] does on an integer. *)
Lemma freq_title_format_Int (z : Z) :
  freq_title_format (Int z) =
  if z <? 10000 then
    if 10 ^ max_str_digits <=? Z.abs z then Raise ValueError
    else Ok ("Frequency: " ++ int_repr z ++ " Hz")
  else match float_of_Z z with
       | Ok x => Ok ("Frequency: "
                     ++ float_repr (float_round_ndigits (x * 1e-3) 1) ++ " kHz")
       | Raise e => Raise OverflowError
       end.
Proof.
  unfold freq_title_format. rewrite num_ltb_Int, num_geb_Int.
  destruct (z <? 10000) eqn:Hz.
  - unfold num_str, int_str. rewrite int_str_limit_eq.
    destruct (10 ^ max_str_digits <=? Z.abs z); reflexivity.
  - apply Z.ltb_ge in Hz. apply Z.leb_le in Hz. rewrite Hz.
    unfold num_mul, to_float.
    destruct (float_of_Z z) as [x|e] eqn:Hf; [reflexivity|].
    unfold float_of_Z in Hf.
    destruct (binary_normalize prec emax z 0 false); try discriminate.
    injection Hf as <-. reflexivity.
Qed.




(** A NaN is neither below 10000 nor at least 10000: no branch assigns
    the title. *)
Lemma freq_title_format_nan : freq_title_format (Float nan) = Raise UnboundLocalError.
Proof. vm_compute; reflexivity. Qed.

Section MapperErrors.
Context {libm : Libm}.

Lemma is_finite_not_nan_inf (r : float) :
  is_finite r = true -> is_nan r = false /\ is_infinity r = false.
Proof.
  unfold is_finite. intros H. apply negb_true_iff, orb_false_iff in H. exact H.
Qed.

(** [round] returns on a finite float. *)
Lemma float_round_finite (r : float) :
  is_finite r = true -> exists k, float_round r = Ok k.
Proof.
  intros H. unfold float_round.
  destruct (is_finite_cases r H) as [[s Hs]|[s [m [e Hs]]]]; rewrite Hs.
  - eexists; reflexivity.
  - destruct (fraction_of m e). eexists; reflexivity.
Qed.

Lemma to_float_2 : to_float (Int 2) = Ok 2%float.
Proof. vm_compute; reflexivity. Qed.

(** [freq_to_slider] raises exactly on a frequency [<= 0]. *)
Lemma freq_to_slider_returns (freq : number) :
  num_leb freq (Int 0) = false -> exists v, freq_to_slider freq = Ok (Float v).
Proof.
  intros H. unfold freq_to_slider, math_log2.
  destruct (loghelper_returns libm_log2 freq H) as [l ->].
  eexists. reflexivity.
Qed.

Lemma freq_to_slider_raises (freq : number) :
  num_leb freq (Int 0) = true -> freq_to_slider freq = Raise ValueError.
Proof.
  intros H. unfold freq_to_slider, math_log2.
  rewrite (loghelper_nonpositive _ _ H). reflexivity.
Qed.

(** [slider_to_freq] returns when the power is a finite double, and
    raises a range error when the power of a finite exponent is
    infinite. *)
Lemma slider_to_freq_returns (value : number) (x : float) :
  to_float value = Ok x ->
  is_finite (libm_pow 2 (x * 1e-4)) = true ->
  exists k, slider_to_freq value = Ok (Int k).
Proof.
  intros Hx Hf. unfold slider_to_freq.
  rewrite (num_mul_Float_r _ _ _ Hx). cbn [bind].
  unfold math_pow. rewrite to_float_2. cbn [bind to_float].
  destruct (is_finite_not_nan_inf _ Hf) as [Hn Hi]. rewrite Hn, Hi.
  destruct (float_round_finite _ Hf) as [k Hk].
  exists k. destruct (is_finite 2 && is_finite (x * 1e-4));
    cbn [bind round]; rewrite Hk; reflexivity.
Qed.

Lemma slider_to_freq_overflows (value : number) (x : float) :
  to_float value = Ok x ->
  is_finite (x * 1e-4) = true ->
  is_infinity (libm_pow 2 (x * 1e-4)) = true ->
  slider_to_freq value = Raise OverflowError.
Proof.
  intros Hx Hf Hi. unfold slider_to_freq.
  rewrite (num_mul_Float_r _ _ _ Hx). cbn [bind].
  unfold math_pow. rewrite to_float_2. cbn [bind to_float].
  rewrite Hf, Hi.
  replace (is_finite 2) with true by (vm_compute; reflexivity). cbn [andb].
  destruct (is_nan (libm_pow 2 (x * 1e-4))) eqn:Hn.
  - unfold is_infinity in Hi. unfold is_nan in Hn.
    rewrite eqb_spec in Hi, Hn. rewrite abs_spec in Hi.
    destruct (Prim2SF (libm_pow 2 (x * 1e-4))) as [s|s| |s m e];
      try discriminate; destruct s; discriminate.
  - replace (2 =? 0)%float with false by (vm_compute; reflexivity). reflexivity.
Qed.

(** [amp_title_format] returns on every number. *)
Lemma amp_title_format_returns (amp : number) :
  exists s, amp_title_format amp = Ok s.
Proof.
  destruct (num_leb amp (Int 0)) eqn:H.
  - unfold amp_title_format, math_log10.
    rewrite (loghelper_nonpositive _ _ H). eexists; reflexivity.
  - destruct (loghelper_returns libm_log10 amp H) as [l Hl].
    rewrite (amp_title_format_of_log amp l Hl). eexists; reflexivity.
Qed.

(** C7, as amended.  The error conditions of the parameter mapping:
    [freq_to_slider] returns on every frequency that is not [<= 0] and
    raises a math domain error on every frequency [<= 0];
    [slider_to_freq] returns whenever the power is a finite double and
    raises a math range error when the power of a finite exponent
    overflows; [amp_title_format] returns on every amplitude. *)
Theorem mapper_error_conditions :
  (forall freq, num_leb freq (Int 0) = false ->
                exists v, freq_to_slider freq = Ok (Float v)) /\
  (forall freq, num_leb freq (Int 0) = true ->
                freq_to_slider freq = Raise ValueError) /\
  (forall value x, to_float value = Ok x ->
                   is_finite (libm_pow 2 (x * 1e-4)) = true ->
                   exists k, slider_to_freq value = Ok (Int k)) /\
  (forall value x, to_float value = Ok x ->
                   is_finite (x * 1e-4) = true ->
                   is_infinity (libm_pow 2 (x * 1e-4)) = true ->
                   slider_to_freq value = Raise OverflowError) /\
  (forall amp, exists s, amp_title_format amp = Ok s).
Proof.
  split; [exact freq_to_slider_returns|].
  split; [exact freq_to_slider_raises|].
  split; [exact slider_to_freq_returns|].
  split; [exact slider_to_freq_overflows|].
  exact amp_title_format_returns.
Qed.

Lemma math_exp_finite (x : float) :
  is_finite (libm_exp x) = true -> math_exp (Float x) = Ok (Float (libm_exp x)).
Proof.
  intros H. unfold math_exp. cbn [to_float bind].
  destruct (is_finite_not_nan_inf _ H) as [-> ->]. reflexivity.
Qed.

Lemma num_mul_Float_Float (x y : float) :
  num_mul (Float x) (Float y) = Ok (Float (x * y)).
Proof. reflexivity. Qed.

Lemma num_mul_Float_10 (x : float) :
  num_mul (Float x) (Int 10) = Ok (Float (x * 10)).
Proof. vm_compute; reflexivity. Qed.

Lemma num_div_Float_const (x c : float) :
  (c =? 0)%float = false -> num_div (Float x) (Float c) = Ok (Float (x / c)).
Proof. intros H. unfold num_div. cbn [to_float bind]. rewrite H. reflexivity. Qed.

(** C8. The legacy amplitude curve: after its deprecation warning,
    [slider_to_amp(value)] is [round(1e-3 * exp(6.908 * value), 3)],
    multiplied by [value * 10] when [value < 0.001]; and
    [amp_to_slider(amp)] is [log(amp / 1e-3) / 6.908]. *)
Theorem legacy_amplitude_curve (value amp : float) :
  (is_finite (libm_exp (6.908 * value)) = true ->
   slider_to_amp (Float value) =
   ([DeprecationWarning "Call to deprecated function slider_to_amp."],
    Ok (Float (let a := float_round_ndigits (1e-3 * libm_exp (6.908 * value)) 3 in
               if (value <? 0.001)%float then a * (value * 10) else a)%float))) /\
  ((amp / 1e-3 <=? 0)%float = false ->
   amp_to_slider (Float amp) =
   ([DeprecationWarning "Call to deprecated function amp_to_slider."],
    Ok (Float (libm_log (amp / 1e-3) / 6.908)%float))).
Proof.
  split.
  - intros H. unfold slider_to_amp, deprecated. f_equal.
    rewrite num_mul_Float_Float. cbn [bind]. rewrite (math_exp_finite _ H).
    cbn [bind]. rewrite num_mul_Float_Float. cbn [bind round_ndigits].
    rewrite num_ltb_Float.
    destruct (value <? 0.001)%float; [|reflexivity].
    rewrite num_mul_Float_10. cbn [bind]. apply num_mul_Float_Float.
  - intros H. unfold amp_to_slider, deprecated. f_equal.
    rewrite num_div_Float_const by (vm_compute; reflexivity). cbn [bind].
    unfold math_log. rewrite (loghelper_Float _ _ H). cbn [bind].
    rewrite num_div_Float_const by (vm_compute; reflexivity). reflexivity.
Qed.

End MapperErrors.

(** C7, as the claim states it, fails: a frequency of zero is outside the
    nominal range and [freq_to_slider] raises on it. *)
Lemma freq_to_slider_zero_raises :
  freq_to_slider (libm := ref_libm) (Float 0) = Raise ValueError.
Proof. vm_compute; reflexivity. Qed.

(** A slider value past [1024e4] overflows the power. *)
Lemma slider_to_freq_overflow_example :
  slider_to_freq (libm := ref_libm) (Float 1.1e7) = Raise OverflowError.
Proof. vm_compute; reflexivity. Qed.

Lemma mapper_error_conditions_witness :
  (exists v, freq_to_slider (libm := ref_libm) (Int 20) = Ok (Float v)) /\
  freq_to_slider (libm := ref_libm) (Int (-5)) = Raise ValueError /\
  (exists k, slider_to_freq (libm := ref_libm) (Float 87813.5971352466) = Ok (Int k)) /\
  slider_to_freq (libm := ref_libm) (Float 1.1e7) = Raise OverflowError /\
  (exists s, amp_title_format (libm := ref_libm) (Float 0.25) = Ok s).
Proof.
  destruct (@mapper_error_conditions ref_libm) as [H1 [H2 [H3 [H4 H5]]]].
  split; [apply H1; vm_compute; reflexivity|].
  split; [apply H2; vm_compute; reflexivity|].
  split; [apply (H3 _ 87813.5971352466%float); vm_compute; reflexivity|].
  split; [apply (H4 _ 1.1e7%float); vm_compute; reflexivity|].
  apply H5.
Defined.

Lemma legacy_amplitude_curve_witness :
  slider_to_amp (libm := ref_libm) (Float 0.5) =
  ([DeprecationWarning "Call to deprecated function slider_to_amp."],
   Ok (Float 0.032)) /\
  slider_to_amp (libm := ref_libm) (Float 0.0005) =
  ([DeprecationWarning "Call to deprecated function slider_to_amp."],
   Ok (Float (0.001 * (0.0005 * 10)))) /\
  amp_to_slider (libm := ref_libm) (Float 0.5) =
  ([DeprecationWarning "Call to deprecated function amp_to_slider."],
   Ok (Float (RefLibm.log (0.5 / 1e-3) / 6.908))).
Proof.
  split; [|split].
  - rewrite (proj1 (@legacy_amplitude_curve ref_libm 0.5 0.5))
      by (vm_compute; reflexivity).
    vm_compute; reflexivity.
  - rewrite (proj1 (@legacy_amplitude_curve ref_libm 0.0005 0.5))
      by (vm_compute; reflexivity).
    vm_compute; reflexivity.
  - rewrite (proj2 (@legacy_amplitude_curve ref_libm 0.5 0.5))
      by (vm_compute; reflexivity).
    reflexivity.
Defined.

(** ** The frequency round trip *)

Section RoundTripProperties.
Import RoundTrip.
Local Open Scope R_scope.

Lemma Rabs_le_bounds (a b : R) : Rabs a <= b -> - b <= a <= b.
Proof. unfold Rabs. destruct (Rcase_abs a); lra. Qed.

Lemma py_round_near (x : R) : Rabs (IZR (py_round x) - x) <= / 2.
Proof.
  unfold py_round. destruct (base_Int_part x) as [Hlo Hhi].
  set (n := Int_part x) in *.
  assert (Hn1 : IZR (n + 1) = IZR n + 1) by (rewrite plus_IZR; reflexivity).
  destruct (Rlt_dec (x - IZR n) (/ 2)) as [H1|H1].
  - apply Rabs_le. lra.
  - destruct (Rlt_dec (/ 2) (x - IZR n)) as [H2|H2].
    + rewrite Hn1. apply Rabs_le. lra.
    + destruct (Z.even n); [|rewrite Hn1]; apply Rabs_le; lra.
Qed.

(** Two reals less than 1 apart round to integers at most 1 apart. *)
Lemma py_round_close (x y : R) :
  Rabs (x - y) < 1 -> (Z.abs (py_round x - py_round y) <= 1)%Z.
Proof.
  intros H.
  pose proof (py_round_near x) as Hx. pose proof (py_round_near y) as Hy.
  apply Rabs_def2 in H. apply Rabs_le_bounds in Hx. apply Rabs_le_bounds in Hy.
  assert (Hd : -2 < IZR (py_round x - py_round y) < 2)
    by (rewrite minus_IZR; lra).
  destruct Hd as [Hd1 Hd2]. apply lt_IZR in Hd1, Hd2. lia.
Qed.

Lemma ln_2_bounds : / 2 < ln 2 < 1.
Proof.
  split; [exact ln_lt_2|].
  rewrite <- (ln_exp 1). apply ln_increasing; [lra|].
  pose proof (exp_ineq1 1). lra.
Qed.

(** The binary logarithm of a frequency in [[20, 20000]] is in
    [[4, 15]]. *)
Lemma log2_range (f : R) : 20 <= f <= 20000 -> 4 <= ln f / ln 2 <= 15.
Proof.
  intros [Hlo Hhi]. pose proof ln_2_bounds as [Hl2 _].
  assert (H16 : ln 16 = 4 * ln 2).
  { replace 16 with (2 ^ 4) by lra. rewrite ln_pow by lra. simpl INR. lra. }
  assert (H32768 : ln 32768 = 15 * ln 2).
  { replace 32768 with (2 ^ 15) by lra. rewrite ln_pow by lra. simpl INR. lra. }
  assert (ln 16 < ln f) by (apply ln_increasing; lra).
  assert (ln f < ln 32768) by (apply ln_increasing; lra).
  split.
  - apply Rmult_le_reg_r with (ln 2); [lra|]. unfold Rdiv.
    rewrite Rmult_assoc, Rinv_l by lra. lra.
  - apply Rmult_le_reg_r with (ln 2); [lra|]. unfold Rdiv.
    rewrite Rmult_assoc, Rinv_l by lra. lra.
Qed.

(** The exponential of a small number. *)
Lemma exp_small (t d : R) :
  Rabs t <= d -> d <= / 2 -> 1 - d <= exp t <= 1 + 2 * d.
Proof.
  intros Ht Hd. apply Rabs_le_bounds in Ht.
  pose proof (exp_ineq1_le t) as H1. pose proof (exp_ineq1_le (- t)) as H2.
  pose proof (exp_pos t) as Hp.
  split; [lra|].
  rewrite exp_Ropp in H2.
  assert (H3 : (1 - t) * exp t <= 1).
  { apply Rmult_le_reg_r with (/ exp t); [apply Rinv_0_lt_compat; exact Hp|].
    rewrite Rmult_assoc, Rinv_r by lra. lra. }
  nra.
Qed.

Lemma rel_err_bounds (a b u : R) :
  0 <= b -> Rabs (a - b) <= u * b -> b * (1 - u) <= a <= b * (1 + u).
Proof. intros Hb H. apply Rabs_le_bounds in H. lra. Qed.

Variable u : R.
Variable A : arith.
Hypothesis u_small : 0 <= u <= / 1000000000.
Hypothesis A_accurate : accurate u A.

(** The exponent that comes back from the slider value is the binary
    logarithm of the frequency, almost. *)
Lemma exponent_close (f : R) :
  20 <= f <= 20000 ->
  Rabs (fl_mul A (freq_to_slider A f) lit_1em4 - ln f / ln 2) <= / 10000000.
Proof.
  intros Hf. destruct A_accurate as [Hmul [Hlog _]].
  pose proof (log2_range f Hf) as HL. set (L := ln f / ln 2) in *.
  unfold freq_to_slider.
  assert (H1 : L * (1 - u) <= fl_log2 A f <= L * (1 + u))
    by (apply rel_err_bounds; [lra | apply Hlog; exact Hf]).
  set (a1 := fl_log2 A f) in *.
  assert (R1 : 3.9 <= a1 <= 15.1) by nra.
  assert (H2 : a1 * 10000 * (1 - u) <= fl_mul A a1 10000 <= a1 * 10000 * (1 + u))
    by (apply rel_err_bounds; [lra | apply Hmul; lra]).
  set (a2 := fl_mul A a1 10000) in *.
  assert (B2 : L * 10000 * (1 - 3 * u) <= a2 <= L * 10000 * (1 + 3 * u)) by nra.
  assert (R2 : 39000 <= a2 <= 151000) by nra.
  assert (Hc : / 10000 <= lit_1em4 <= / 10000 * (1 + / 1000000000000000))
    by (unfold lit_1em4; lra).
  assert (R3 : 3.9 <= a2 * lit_1em4 <= 15.2) by nra.
  assert (H3 : a2 * lit_1em4 * (1 - u) <= fl_mul A a2 lit_1em4
                <= a2 * lit_1em4 * (1 + u))
    by (apply rel_err_bounds; [lra | apply Hmul; lra]).
  set (a3 := fl_mul A a2 lit_1em4) in *.
  assert (B3 : L * (1 - 5 * u) <= a2 * lit_1em4 <= L * (1 + 5 * u + / 100000000000000))
    by nra.
  apply Rabs_le. nra.
Qed.

(** What comes back from the power is the frequency, almost. *)
Lemma power_close (f : R) :
  20 <= f <= 20000 ->
  Rabs (fl_pow A 2 (fl_mul A (freq_to_slider A f) lit_1em4) - f) < 1.
Proof.
  intros Hf. pose proof (exponent_close f Hf) as He.
  destruct A_accurate as [_ [_ Hpow]].
  pose proof (log2_range f Hf) as HL. pose proof ln_2_bounds as Hl2.
  set (L := ln f / ln 2) in *.
  set (a3 := fl_mul A (freq_to_slider A f) lit_1em4) in *.
  assert (Ra : 3 <= a3 <= 16) by (apply Rabs_le_bounds in He; lra).
  pose proof (Hpow a3 Ra) as Hp.
  assert (Hf' : f = exp (L * ln 2)).
  { unfold L, Rdiv. rewrite Rmult_assoc, Rinv_l, Rmult_1_r by lra.
    symmetry. apply exp_ln. lra. }
  assert (Hsplit : Rpower 2 a3 = f * exp ((a3 - L) * ln 2)).
  { unfold Rpower. rewrite Hf' at 1. rewrite <- exp_plus. f_equal. ring. }
  assert (Ht : Rabs ((a3 - L) * ln 2) <= / 10000000).
  { apply Rabs_le. apply Rabs_le_bounds in He. nra. }
  pose proof (exp_small _ _ Ht ltac:(lra)) as Hexp.
  set (E := exp ((a3 - L) * ln 2)) in *.
  assert (Hpos : 0 < Rpower 2 a3) by (unfold Rpower; apply exp_pos).
  assert (Hb : Rpower 2 a3 * (1 - u) <= fl_pow A 2 a3 <= Rpower 2 a3 * (1 + u))
    by (apply rel_err_bounds; [lra | exact Hp]).
  rewrite Hsplit in Hb.
  apply Rabs_def1; nra.
Qed.


End RoundTripProperties.

(** Exact arithmetic is accurate, with no error. *)
Lemma exact_accurate : RoundTrip.accurate 0 RoundTrip.exact.
Proof.
  unfold RoundTrip.accurate, RoundTrip.exact; cbn.
  repeat split; intros; rewrite Rminus_diag, Rabs_R0; lra.
Qed.


(** ** The sweeps, whatever the C library *)

Lemma misuses_app (t1 t2 : list event) :
  misuses (t1 ++ t2) = (misuses t1 ++ misuses t2)%list.
Proof. unfold misuses. apply flat_map_app. Qed.

Lemma misuses_stop_first (o : Oscillator) : misuses (stop_first o) = [].
Proof. unfold stop_first. destruct (stream o); reflexivity. Qed.

Lemma misuses_sweep_steps (o : Oscillator) (fs : list float) :
  misuses (flat_map (sweep_step o) fs) = [].
Proof.
  induction fs as [|f fs IH]; [reflexivity|].
  cbn [flat_map]. rewrite misuses_app, IH. reflexivity.
Qed.

(** One more test of the condition of a loop. *)
Lemma while_S (n : nat) (cond : BarOscApp -> bool) (body : method unit)
    (a : BarOscApp) :
  while (S n) cond body a =
  if cond a then seq body (fun _ => while n cond body) a
  else Some (Ok tt, a, []).
Proof.
  cbn [while]. unfold seq at 1, read. destruct (cond a); [|reflexivity].
  destruct (seq body _ a) as [[[r a2] t2]|]; reflexivity.
Qed.

(** The loop of a sweep by a ratio that is a float: when it ends, it has
    not raised, it has played frequencies [<= 1760] only, one step each,
    and it leaves the oscillator idle. *)
Lemma sweep_loop_ends (ratio : float) (sr : Z) (amp : number)
    (sb pb : option callback) (fuel : nat) :
  forall (f : float) r a' t,
    while fuel (fun a => num_leb (frequency (osc a)) (Int 1760))
      (f <~ read (fun a => frequency (osc a)) ;;
       text <~ lift (num_str f) ;;
       emit (Print (text ++ " Hz")) ;;;
       on_osc play ;;;
       emit (Sleep 1) ;;;
       on_osc stop ;;;
       f <~ read (fun a => frequency (osc a)) ;;
       f' <~ lift (num_mul f (Float ratio)) ;;
       assign (fun a => set_osc (set_frequency f' (osc a)) a))
      (sweeping sr amp sb pb f) = Some (r, a', t) ->
    r = Ok tt /\
    exists fs f',
      a' = sweeping sr amp sb pb f' /\
      t = flat_map (sweep_step (osc (sweeping sr amp sb pb f))) fs /\
      forallb (fun x => num_leb (Float x) (Int 1760)) fs = true /\
      num_leb (Float f') (Int 1760) = false /\
      geometric (S (List.length fs)) f ratio = (fs ++ [f'])%list.
Proof.
  induction fuel as [|n IH]; intros f r a' t H; [discriminate|].
  rewrite while_S in H.
  change (frequency (osc (sweeping sr amp sb pb f))) with (Float f) in H.
  destruct (num_leb (Float f) (Int 1760)) eqn:Hc.
  - unfold seq at 1 in H.
    change ((f0 <~ read (fun a => frequency (osc a)) ;;
             text <~ lift (num_str f0) ;;
             emit (Print (text ++ " Hz")) ;;;
             on_osc play ;;;
             emit (Sleep 1) ;;;
             on_osc stop ;;;
             f1 <~ read (fun a => frequency (osc a)) ;;
             f' <~ lift (num_mul f1 (Float ratio)) ;;
             assign (fun a => set_osc (set_frequency f' (osc a)) a))
              (sweeping sr amp sb pb f))
      with (Some (Ok tt, sweeping sr amp sb pb (f * ratio)%float,
                  sweep_step (osc (sweeping sr amp sb pb f)) f)) in H.
    cbv beta iota in H.
    destruct (while n _ _ (sweeping sr amp sb pb (f * ratio)%float))
      as [[[r2 a2] t2]|] eqn:Hw; [|discriminate].
    injection H as <- <- <-.
    destruct (IH _ _ _ _ Hw) as [Hr [fs [f' [Ha [Ht [Hle [Hgt Hg]]]]]]].
    split; [exact Hr|].
    exists (f :: fs), f'. split; [exact Ha|].
    split; [rewrite Ht; reflexivity|].
    split; [cbn [forallb]; rewrite Hc, Hle; reflexivity|].
    split; [exact Hgt|].
    change (f :: geometric (S (List.length fs)) (f * ratio)%float ratio
            = f :: (fs ++ [f'])%list).
    rewrite Hg. reflexivity.
  - injection H as <- <- <-. split; [reflexivity|].
    exists [], f. repeat split. exact Hc.
Qed.
Section SweepsAnyLibm.
Context {libm : Libm}.

(** A run of [octave_walk_thirds] that ends, whatever [2**(1/3)] is: it
    has not raised, the oscillator is idle with its wave type and its
    frequency restored, and the steps played are those of a geometric
    sequence from 27.5 Hz, all of them [<= 1760]. *)
Lemma octave_walk_thirds_ends (fuel : nat) (a : BarOscApp) r a' t :
  octave_walk_thirds fuel a = Some (r, a', t) ->
  r = Ok tt /\
  a' = set_osc (set_stream None (osc a))
               (match stream (osc a) with
                | Some _ => osc_ready_menu a
                | None => a
                end) /\
  exists fs f',
    t = (stop_first (osc a) ++ flat_map (sweep_step (osc a)) fs)%list /\
    forallb (fun x => num_leb (Float x) (Int 1760)) fs = true /\
    num_leb (Float f') (Int 1760) = false /\
    geometric (S (List.length fs)) 27.5 two_pow_third = (fs ++ [f'])%list.
Proof.
  intros H. unfold octave_walk_thirds in H.
  remember (while fuel _ _) as L eqn:HL.
  destruct a as [[sr w amp f [h|]] sb pb].
  - cbv in H.
    change (L _) with (L (sweeping sr amp (Some cb_start_osc) None 27.5)) in H.
    destruct (L _) as [[[r2 a2] t2]|] eqn:Hw; [|discriminate].
    rewrite HL in Hw. apply sweep_loop_ends in Hw.
    destruct Hw as [-> [fs [f' [-> [-> [Hle [Hgt Hg]]]]]]].
    cbv [sweeping osc samplerate amplitude stream start_button stop_button] in H.
    injection H as <- <- <-.
    split; [reflexivity|]. split; [reflexivity|].
    exists fs, f'. split; [|split; [|split]; assumption].
    match goal with
    | |- _ = (_ ++ flat_map ?F fs)%list =>
        transitivity (Stop h :: (flat_map F fs ++ [])%list);
        [reflexivity | rewrite app_nil_r; reflexivity]
    end.
  - cbv in H.
    change (L _) with (L (sweeping sr amp sb pb 27.5)) in H.
    destruct (L _) as [[[r2 a2] t2]|] eqn:Hw; [|discriminate].
    rewrite HL in Hw. apply sweep_loop_ends in Hw.
    destruct Hw as [-> [fs [f' [-> [-> [Hle [Hgt Hg]]]]]]].
    cbv [sweeping osc samplerate amplitude stream start_button stop_button] in H.
    injection H as <- <- <-.
    split; [reflexivity|]. split; [reflexivity|].
    exists fs, f'. split; [|split; [|split]; assumption].
    match goal with
    | |- _ = (_ ++ flat_map ?F fs)%list =>
        transitivity (flat_map F fs ++ [])%list;
        [reflexivity | rewrite app_nil_r; reflexivity]
    end.
Qed.


End SweepsAnyLibm.
(** A run of [octave_walk] that ends has taken its 7 steps. *)
Lemma octave_walk_ends (fuel : nat) (a : BarOscApp) r a' t :
  octave_walk fuel a = Some (r, a', t) ->
  r = Ok tt /\
  a' = set_osc (set_stream None (osc a))
               (match stream (osc a) with
                | Some _ => osc_ready_menu a
                | None => a
                end) /\
  t = (stop_first (osc a)
       ++ flat_map (sweep_step (osc a)) (geometric 7 27.5 2))%list.
Proof.
  intros H. destruct (Nat.le_gt_cases fuel 7) as [Hn|Hn].
  - rewrite (octave_walk_needs_fuel a fuel Hn) in H. discriminate.
  - replace fuel with (8 + (fuel - 8))%nat in H by lia.
    rewrite octave_walk_run in H. injection H as <- <- <-. repeat split.
Qed.

(** ** The exceptions of the frequency helpers *)

Lemma is_nan_Prim2SF (x : float) : is_nan x = true <-> Prim2SF x = S754_nan.
Proof.
  unfold Prim2SF. destruct (is_nan x); [split; reflexivity|].
  split; [discriminate|].
  destruct (is_zero x); [discriminate|].
  destruct (is_infinity x); [discriminate|].
  destruct (Z.frexp x) as [fr ex].
  destruct (shr_fexp prec emax _ _ _) as [sh e'].
  destruct (shr_m sh); discriminate.
Qed.

(** The exact comparison with an integer is undefined on a NaN only. *)
Lemma compare_float_Z_None (x : float) (z : Z) :
  compare_float_Z x z = None <-> is_nan x = true.
Proof.
  rewrite is_nan_Prim2SF. unfold compare_float_Z.
  destruct (Prim2SF x) as [s|s| |s m e]; split; try discriminate; reflexivity.
Qed.

Lemma float_of_Z_raises (z : Z) (e : exn) :
  float_of_Z z = Raise e -> e = OverflowError.
Proof.
  unfold float_of_Z. destruct (binary_normalize prec emax z 0 false);
    try discriminate. intros H. injection H as <-. reflexivity.
Qed.

Lemma num_mul_raises (a b : number) (e : exn) :
  num_mul a b = Raise e -> e = OverflowError.
Proof.
  destruct a as [x|x], b as [y|y]; cbn [num_mul to_float bind]; try discriminate.
  - destruct (float_of_Z x) eqn:H; [discriminate|].
    cbn [bind]. intros H'. injection H' as <-. apply (float_of_Z_raises _ _ H).
  - destruct (float_of_Z y) eqn:H; [discriminate|].
    cbn [bind]. intros H'. injection H' as <-. apply (float_of_Z_raises _ _ H).
Qed.

Lemma float_round_raises (x : float) (e : exn) :
  float_round x = Raise e -> e = ValueError \/ e = OverflowError.
Proof.
  unfold float_round. destruct (Prim2SF x) as [s|s| |s m ex]; try discriminate.
  - intros H. injection H as <-. right. reflexivity.
  - intros H. injection H as <-. left. reflexivity.
  - destruct (fraction_of m ex). discriminate.
Qed.

Section FrequencyErrors.
Context {libm : Libm}.

Lemma math_pow_outcomes (a b : number) :
  (exists r, math_pow a b = Ok (Float r)) \/
  math_pow a b = Raise ValueError \/ math_pow a b = Raise OverflowError.
Proof.
  unfold math_pow.
  destruct (to_float a) as [x|e] eqn:Ha.
  - destruct (to_float b) as [y|e] eqn:Hb; cbn [bind].
    + destruct (is_finite x && is_finite y); [|left; eexists; reflexivity].
      destruct (is_nan (libm_pow x y)); [right; left; reflexivity|].
      destruct (is_infinity (libm_pow x y)); [|left; eexists; reflexivity].
      destruct (x =? 0)%float; right; [left | right]; reflexivity.
    + right. right. f_equal. destruct b; [|discriminate].
      apply (float_of_Z_raises _ _ Hb).
  - cbn [bind]. right. right. f_equal. destruct a; [|discriminate].
    apply (float_of_Z_raises _ _ Ha).
Qed.

Lemma slider_to_freq_outcomes (value : number) :
  (exists k, slider_to_freq value = Ok (Int k)) \/
  slider_to_freq value = Raise ValueError \/
  slider_to_freq value = Raise OverflowError.
Proof.
  unfold slider_to_freq.
  destruct (num_mul value (Float 1e-4)) as [e|e] eqn:Hm; cbn [bind].
  - destruct (math_pow_outcomes (Int 2) e) as [[r Hr]|[Hr|Hr]]; rewrite Hr;
      cbn [bind round].
    + destruct (float_round r) as [k|e'] eqn:Hk; cbn [bind].
      * left. exists k. reflexivity.
      * right. destruct (float_round_raises _ _ Hk) as [-> | ->];
          [left | right]; reflexivity.
    + right. left. reflexivity.
    + right. right. reflexivity.
  - right. right. f_equal. apply (num_mul_raises _ _ _ Hm).
Qed.

End FrequencyErrors.

(** The title of a float that is not a NaN. *)
Lemma freq_title_format_not_nan (x : float) :
  is_nan x = false -> exists s, freq_title_format (Float x) = Ok s.
Proof.
  intros Hn. unfold freq_title_format, num_ltb, num_geb.
  cbn [num_compare].
  destruct (compare_float_Z x 10000) as [c|] eqn:Hc.
  - destruct c; cbn [num_mul to_float bind round_ndigits num_str];
      eexists; reflexivity.
  - apply compare_float_Z_None in Hc. congruence.
Qed.

(** X8. [freq_title_format] raises in three cases only: an
    [UnboundLocalError] on a NaN, which is neither below 10000 nor at
    least 10000, so that no branch assigns the title; a [ValueError] on
    an integer below 10000 of more than 4300 digits, which the f-string
    cannot convert to text; and an [OverflowError] on an integer from
    10000 up that is too large for a float, such as [2 ** 1024].  It
    never raises a [ZeroDivisionError]. *)
Theorem freq_title_format_raises (freq : number) :
  (freq_title_format freq = Raise UnboundLocalError <->
   exists x, freq = Float x /\ is_nan x = true) /\
  (freq_title_format freq = Raise ValueError <->
   exists z, freq = Int z /\ z <= - 10 ^ max_str_digits) /\
  (freq_title_format freq = Raise OverflowError <->
   exists z, freq = Int z /\ 10000 <= z /\ float_of_Z z = Raise OverflowError) /\
  freq_title_format freq <> Raise ZeroDivisionError /\
  freq_title_format (Int (- 10 ^ 4300)) = Raise ValueError /\
  freq_title_format (Int (2 ^ 1024)) = Raise OverflowError.
Proof.
  pose proof max_str_digits_large as HL.
  assert (H1024 : 10000 < 2 ^ 1024) by (vm_compute; reflexivity).
  assert (Ex1 : freq_title_format (Int (- 10 ^ 4300)) = Raise ValueError)
    by (vm_compute; reflexivity).
  assert (Ex2 : freq_title_format (Int (2 ^ 1024)) = Raise OverflowError)
    by (vm_compute; reflexivity).
  assert (Hnan : forall x, is_nan x = true ->
                           freq_title_format (Float x) = Raise UnboundLocalError).
  { intros x Hx. unfold freq_title_format, num_ltb, num_geb. cbn [num_compare].
    rewrite (proj2 (compare_float_Z_None x 10000) Hx). reflexivity. }
  destruct freq as [z|x].
  - rewrite freq_title_format_Int.
    destruct (z <? 10000) eqn:Hz.
    + apply Z.ltb_lt in Hz.
      destruct (Z.leb_spec (10 ^ max_str_digits) (Z.abs z)) as [Hd|Hd].
      * split; [split; [discriminate | intros [x [H _]]; discriminate]|].
        split; [split; [|reflexivity]|].
        { intros _. exists z. split; [reflexivity | lia]. }
        split; [split; [discriminate|]|].
        { intros [z' [H [Hle _]]]. injection H as <-. lia. }
        split; [discriminate|]. split; assumption.
      * split; [split; [discriminate | intros [x [H _]]; discriminate]|].
        split; [split; [discriminate|]|].
        { intros [z' [H Hle]]. injection H as <-. lia. }
        split; [split; [discriminate|]|].
        { intros [z' [H [Hle _]]]. injection H as <-. lia. }
        split; [discriminate|]. split; assumption.
    + apply Z.ltb_ge in Hz.
      destruct (float_of_Z z) as [x|e] eqn:Hf.
      * split; [split; [discriminate | intros [x' [H _]]; discriminate]|].
        split; [split; [discriminate|]|].
        { intros [z' [H Hle]]. injection H as <-. lia. }
        split; [split; [discriminate|]|].
        { intros [z' [H [_ Hr]]]. injection H as <-. congruence. }
        split; [discriminate|]. split; assumption.
      * pose proof (float_of_Z_raises _ _ Hf) as He. subst e.
        split; [split; [discriminate | intros [x' [H _]]; discriminate]|].
        split; [split; [discriminate|]|].
        { intros [z' [H Hle]]. injection H as <-. lia. }
        split; [split; [|reflexivity]|].
        { intros _. exists z. split; [reflexivity|]. split; [lia | exact Hf]. }
        split; [discriminate|]. split; assumption.
  - destruct (is_nan x) eqn:Hx.
    + rewrite (Hnan x Hx).
      split; [split; [intros _; exists x; split; reflexivity || assumption | reflexivity]|].
      split; [split; [discriminate | intros [z [H _]]; discriminate]|].
      split; [split; [discriminate | intros [z [H _]]; discriminate]|].
      split; [discriminate|]. split; assumption.
    + destruct (freq_title_format_not_nan x Hx) as [s Hs]. rewrite Hs.
      split; [split; [discriminate|]|].
      { intros [x' [H Hx']]. injection H as <-. congruence. }
      split; [split; [discriminate | intros [z [H _]]; discriminate]|].
      split; [split; [discriminate | intros [z [H _]]; discriminate]|].
      split; [discriminate|]. split; assumption.
Qed.

Lemma is_infinity_Prim2SF (r : float) :
  is_infinity r = true -> exists s, Prim2SF r = S754_infinity s.
Proof.
  unfold is_infinity. rewrite eqb_spec, abs_spec.
  destruct (Prim2SF r) as [s|s| |s m e]; try discriminate.
  intros _. exists s. reflexivity.
Qed.

(** X9. [slider_to_freq] returns an integer or raises a [ValueError] or an
    [OverflowError], on every number and whatever the C library's [pow]
    returns: it returns no float and raises no other exception.  On a
    float it is decided by the power alone: a NaN gives the
    [ValueError], an infinity the [OverflowError], and a finite power is
    rounded to the nearest integer, whether the error comes from
    [math.pow] (finite exponent) or from [round] (a NaN or an infinite
    exponent). *)
Theorem slider_to_freq_int_or_raises {libm : Libm} :
  (forall value,
      (exists k, slider_to_freq value = Ok (Int k)) \/
      slider_to_freq value = Raise ValueError \/
      slider_to_freq value = Raise OverflowError) /\
  (forall v,
      (is_nan (libm_pow 2 (v * 1e-4)) = true ->
       slider_to_freq (Float v) = Raise ValueError) /\
      (is_infinity (libm_pow 2 (v * 1e-4)) = true ->
       slider_to_freq (Float v) = Raise OverflowError) /\
      (is_finite (libm_pow 2 (v * 1e-4)) = true ->
       exists k, float_round (libm_pow 2 (v * 1e-4)) = Ok k /\
                 slider_to_freq (Float v) = Ok (Int k))).
Proof.
  split; [exact slider_to_freq_outcomes|].
  intros v. unfold slider_to_freq.
  rewrite num_mul_Float_Float. cbn [bind].
  unfold math_pow. rewrite to_float_2. cbn [bind to_float].
  replace (2 =? 0)%float with false by (vm_compute; reflexivity).
  set (r := libm_pow 2 (v * 1e-4)).
  split; [|split].
  - intros Hn. rewrite Hn.
    destruct (is_finite 2 && is_finite (v * 1e-4)); [reflexivity|].
    cbn [bind round]. unfold float_round.
    rewrite (proj1 (is_nan_Prim2SF r) Hn). reflexivity.
  - intros Hi. destruct (is_infinity_Prim2SF r Hi) as [sg Hr].
    assert (Hn : is_nan r = false).
    { destruct (is_nan r) eqn:E; [|reflexivity].
      apply is_nan_Prim2SF in E. congruence. }
    rewrite Hn, Hi.
    destruct (is_finite 2 && is_finite (v * 1e-4)); [reflexivity|].
    cbn [bind round]. unfold float_round. rewrite Hr. reflexivity.
  - intros Hf. destruct (is_finite_not_nan_inf r Hf) as [Hn Hi].
    destruct (float_round_finite r Hf) as [k Hk].
    exists k. split; [exact Hk|]. rewrite Hn, Hi.
    destruct (is_finite 2 && is_finite (v * 1e-4)); cbn [bind round];
      rewrite Hk; reflexivity.
Qed.

(** A slider value that is a NaN: the power is a NaN, and [round]
    raises. *)
Lemma slider_to_freq_nan_example :
  slider_to_freq (libm := ref_libm) (Float nan) = Raise ValueError.
Proof. vm_compute; reflexivity. Qed.

(** ** The domain of the legacy amplitude inverse *)

Lemma iter_pos_invariant {A : Type} (P : A -> Prop) (f : A -> A) :
  (forall x, P x -> P (f x)) ->
  forall n x, P x -> P (SpecFloat.iter_pos f n x).
Proof.
  intros Hf. induction n as [n IH|n IH|]; intros x Hx; cbn [SpecFloat.iter_pos].
  - apply IH, IH, Hf, Hx.
  - apply IH, IH, Hx.
  - apply Hf, Hx.
Qed.

Lemma shr_1_nonneg (mrs : shr_record) : 0 <= shr_m mrs -> 0 <= shr_m (shr_1 mrs).
Proof.
  destruct mrs as [m r s]. cbn [shr_m]. intros Hm.
  destruct m as [|[p|p|]|p]; cbn [shr_1 shr_m]; lia.
Qed.

Lemma shr_fexp_nonneg (m e : Z) (l : location) :
  0 <= m -> 0 <= shr_m (fst (shr_fexp prec emax m e l)).
Proof.
  intros Hm. unfold shr_fexp, shr.
  assert (H0 : 0 <= shr_m (shr_record_of_loc m l))
    by (destruct l as [|[ | | ]]; exact Hm).
  destruct (fexp prec emax (Zdigits2 m + e) - e) as [|p|p]; cbn [fst];
    try exact H0.
  apply (iter_pos_invariant (fun x => 0 <= shr_m x)); [exact shr_1_nonneg | exact H0].
Qed.

Lemma round_nearest_even_nonneg (m : Z) (l : location) :
  0 <= m -> 0 <= round_nearest_even m l.
Proof.
  intros Hm. destruct l as [|[ | | ]]; cbn [round_nearest_even];
    try destruct (Z.even m); lia.
Qed.

(** Rounding a magnitude gives a zero, a finite number or an infinity of
    the sign asked for, never a NaN. *)
Lemma binary_round_aux_sign (sx : bool) (mx ex : Z) (lx : location) :
  0 <= mx ->
  match binary_round_aux prec emax sx mx ex lx with
  | S754_zero s | S754_infinity s | S754_finite s _ _ => s = sx
  | S754_nan => False
  end.
Proof.
  intros Hm. unfold binary_round_aux.
  pose proof (shr_fexp_nonneg mx ex lx Hm) as H1.
  destruct (shr_fexp prec emax mx ex lx) as [mrs' e']. cbn [fst] in H1.
  pose proof (shr_fexp_nonneg _ e' loc_Exact
                (round_nearest_even_nonneg _ (loc_of_shr_record mrs') H1)) as H2.
  destruct (shr_fexp prec emax _ e' loc_Exact) as [mrs'' e'']. cbn [fst] in H2.
  destruct (shr_m mrs'') as [|p|p]; [reflexivity| |lia].
  destruct (e'' <=? emax - prec); reflexivity.
Qed.

Lemma SFdiv_core_binary_nonneg (m1 m2 : positive) (e1 e2 : Z) :
  0 <= fst (fst (SFdiv_core_binary prec emax (Z.pos m1) e1 (Z.pos m2) e2)).
Proof.
  unfold SFdiv_core_binary.
  set (s := _ - _ - Z.min _ _).
  set (m' := match s with Z.pos _ => Z.shiftl (Z.pos m1) s | 0 => Z.pos m1 | Z.neg _ => 0 end).
  assert (Hm : 0 <= m').
  { unfold m'. destruct s; try lia. apply Z.shiftl_nonneg. lia. }
  pose proof (Z.div_pos m' (Z.pos m2) Hm ltac:(lia)) as Hq.
  unfold Z.div in Hq. destruct (Z.div_eucl m' (Z.pos m2)) as [q r].
  exact Hq.
Qed.

(** A float [<= 0] divided by a positive finite float is [<= 0]. *)
Lemma div_nonpositive (x c : float) (mc : positive) (ec : Z) :
  Prim2SF c = S754_finite false mc ec ->
  (x <=? 0)%float = true -> (x / c <=? 0)%float = true.
Proof.
  intros Hc. rewrite !leb_spec, div_spec, Hc, Prim2SF_zero. unfold SF64div.
  destruct (Prim2SF x) as [s|s| |s m e]; cbn [SFdiv]; try discriminate.
  - destruct s; reflexivity.
  - destruct s; [reflexivity | discriminate].
  - destruct s; [|discriminate]. intros _. cbn [xorb].
    pose proof (SFdiv_core_binary_nonneg m mc e ec) as Hq.
    destruct (SFdiv_core_binary prec emax (Z.pos m) e (Z.pos mc) ec) as [[mz ez] lz].
    cbn [fst] in Hq.
    pose proof (binary_round_aux_sign true mz ez lz Hq) as Hs.
    destruct (binary_round_aux prec emax true mz ez lz) as [s|s| |s m' e'];
      try contradiction; subst s; reflexivity.
Qed.

(** X16. [amp_to_slider] has no guard for the amplitudes the volume title
    renders as minus infinity: on every float [amp <= 0] (a negative
    number, a zero of either sign, minus infinity) the quotient by
    [1e-3] is [<= 0] too, and the logarithm raises a [ValueError], after
    the deprecation warning; the division itself never raises. *)
Theorem amp_to_slider_nonpositive {libm : Libm} (amp : float) :
  (amp <=? 0)%float = true ->
  amp_to_slider (Float amp) =
  ([DeprecationWarning "Call to deprecated function amp_to_slider."],
   Raise ValueError).
Proof.
  intros H. unfold amp_to_slider, deprecated. f_equal.
  rewrite num_div_Float_const by (vm_compute; reflexivity). cbn [bind].
  unfold math_log, loghelper.
  rewrite (div_nonpositive amp 1e-3 4611686018427388 (-62)
             ltac:(vm_compute; reflexivity) H).
  reflexivity.
Qed.

Lemma amp_to_slider_nonpositive_witness :
  (0 <=? 0)%float = true /\
  amp_to_slider (libm := ref_libm) (Float 0) =
  ([DeprecationWarning "Call to deprecated function amp_to_slider."],
   Raise ValueError) /\
  amp_to_slider (libm := ref_libm) (Float (-0.25)) =
  ([DeprecationWarning "Call to deprecated function amp_to_slider."],
   Raise ValueError).
Proof.
  split; [vm_compute; reflexivity|]. split.
  - apply (@amp_to_slider_nonpositive ref_libm 0). vm_compute; reflexivity.
  - apply (@amp_to_slider_nonpositive ref_libm (-0.25)). vm_compute; reflexivity.
Defined.

(** ** The integers the frequency slider sets *)

(** A float rounds to an integer below [2 ^ 1024] in magnitude. *)
Lemma float_round_bound (x : float) (k : Z) :
  float_round x = Ok k -> Z.abs k <= 2 ^ 1024.
Proof.
  unfold float_round. pose proof (Prim2SF_valid x) as Hv.
  destruct (Prim2SF x) as [s|s| |s m e]; try discriminate.
  - intros H. injection H as <-. vm_compute. discriminate.
  - cbn [valid_binary] in Hv. unfold bounded, canonical_mantissa in Hv.
    apply andb_true_iff in Hv. destruct Hv as [Hc He].
    apply Z.eqb_eq in Hc. apply Z.leb_le in He. unfold fexp in Hc.
    pose proof (digits2_pos_gt m) as Hm.
    assert (Hd : Z.pos (digits2_pos m) <= 53) by (unfold prec in Hc; lia).
    assert (H53 : 2 ^ Z.pos (digits2_pos m) <= 2 ^ 53)
      by (apply Z.pow_le_mono_r; lia).
    assert (Hk : 0 <= (let '(n, d) := fraction_of m e in div_half_even n d)
                 <= 2 ^ 1024).
    { unfold fraction_of. destruct (0 <=? e) eqn:H0.
      - apply Z.leb_le in H0.
        assert (He' : 2 ^ e <= 2 ^ 971)
          by (apply Z.pow_le_mono_r; unfold emax, prec in He; lia).
        assert (0 < 2 ^ e) by (apply Z.pow_pos_nonneg; lia).
        unfold div_half_even. rewrite Z.div_1_r, Z.mod_1_r.
        change (2 * 0 ?= 1) with Lt. cbv iota.
        replace (2 ^ 1024) with (2 ^ 53 * 2 ^ 971) by (vm_compute; reflexivity).
        split; [lia|].
        apply Z.mul_le_mono_nonneg; lia.
      - apply Z.leb_gt in H0.
        assert (Hp : 0 < 2 ^ (- e)) by (apply Z.pow_pos_nonneg; lia).
        pose proof (Z.div_pos (Z.pos m) (2 ^ (- e)) ltac:(lia) Hp) as Hq0.
        pose proof (Z.div_le_upper_bound (Z.pos m) (2 ^ (- e)) (Z.pos m) Hp
                      ltac:(nia)) as Hq1.
        assert (H1024 : 2 ^ 53 < 2 ^ 1024) by (vm_compute; reflexivity).
        unfold div_half_even.
        destruct (2 * (Z.pos m mod 2 ^ (- e)) ?= 2 ^ (- e));
          try destruct (Z.even (Z.pos m / 2 ^ (- e))); lia. }
    destruct (fraction_of m e) as [n d].
    intros H. injection H as <-. destruct s; lia.
Qed.

(** The integer [slider_to_freq] returns has a text. *)
Lemma slider_to_freq_prints {libm : Libm} (value f : number) :
  slider_to_freq value = Ok f ->
  exists k, f = Int k /\ num_str f = Ok (int_repr k).
Proof.
  unfold slider_to_freq.
  destruct (num_mul value (Float 1e-4)) as [e|]; [|discriminate].
  cbn [bind].
  destruct (math_pow_outcomes (Int 2) e) as [[r Hr]|[Hr|Hr]]; rewrite Hr;
    [|discriminate|discriminate].
  cbn [bind round]. destruct (float_round r) as [k|] eqn:Hk; [|discriminate].
  cbn [bind]. intros H. injection H as <-. exists k. split; [reflexivity|].
  cbn [num_str]. apply int_str_returns.
  pose proof (float_round_bound r k Hk). pose proof max_str_digits_large. lia.
Qed.

(** ** The callbacks of the menu *)

Section MenuProperties.
Context {libm : Libm}.

(** What [adj_freq] does, by the outcome of the two helpers it calls. *)
Lemma adj_freq_eq (s : App) :
  adj_freq s =
  match slider_to_freq (Float (slider_value (freq_slider (menu s)))) with
  | Raise e => Some (Raise e, s, [])
  | Ok f =>
      match freq_title_format f with
      | Raise e => Some (Raise e, s, [])
      | Ok text =>
          Some (Ok tt,
                {| core := set_osc (set_frequency f (osc (core s))) (core s);
                   menu := set_freq_title (set_title text (freq_title (menu s)))
                             (menu s) |},
                [Print ("SLIDER ===> "
                        ++ float_repr (slider_value (freq_slider (menu s)))
                        ++ ", FREQ ===> "
                        ++ match f with Int k => int_repr k | Float x => float_repr x end)])
      end
  end.
Proof.
  unfold adj_freq, h_seq, h_read, h_lift.
  destruct (slider_to_freq _) as [f|e] eqn:Hf; [|reflexivity].
  destruct (slider_to_freq_prints _ _ Hf) as [k [-> Hk]].
  destruct (freq_title_format (Int k)) as [text|e]; [|reflexivity].
  cbv beta iota delta [h_assign h_emit osc_frequency core osc frequency
                         set_core set_osc set_frequency set_menu menu].
  rewrite Hk. reflexivity.
Qed.

Lemma adj_amp_eq (s : App) :
  adj_amp s =
  match amp_title_format (Float (slider_value (amp_slider (menu s)))) with
  | Raise e => Some (Raise e, s, [])
  | Ok text =>
      Some (Ok tt,
            {| core := set_osc (set_amplitude (Float (slider_value (amp_slider (menu s))))
                                  (osc (core s))) (core s);
               menu := set_amp_title (set_title text (amp_title (menu s)))
                         (menu s) |},
            [Print ("SLIDER ===> " ++ float_repr (slider_value (amp_slider (menu s)))
                    ++ ", AMP ===> " ++ float_repr (slider_value (amp_slider (menu s))))])
  end.
Proof.
  unfold adj_amp, h_seq, h_read, h_lift.
  destruct (amp_title_format _) as [text|e]; reflexivity.
Qed.

(** What the callback of a wave type button does: the button of the new
    wave type loses its callback, then the button of the old one gets
    its own. *)
Lemma wave_callback_eq (fuel : nat) (x : wave) (s : App) :
  call_menu_callback fuel (wave_methods x) s =
  Some (Ok tt,
        {| core := set_osc (set_wave_type x (osc (core s))) (core s);
           menu := wave_buttons_set_callback (wave_type (osc (core s)))
                     (Some (wave_methods (wave_type (osc (core s)))))
                     (wave_buttons_set_callback x None (menu s)) |},
        []).
Proof. destruct x; reflexivity. Qed.

(** Picking a wave type other than the current one. *)
Lemma select_wave_consistent (fuel : nat) (x : wave) (s : App) r s' t :
  consistent s ->
  wave_type (osc (core s)) <> x ->
  call_menu_callback fuel (wave_methods x) s = Some (r, s', t) ->
  consistent s' /\ t = [].
Proof.
  intros [Hm Hw Ht Hs Hi] Hx H. rewrite wave_callback_eq in H.
  injection H as <- <- <-. split; [|reflexivity].
  destruct s as [[[sr w amp f st] sb pb] m].
  cbn [core osc wave_type menu] in *.
  constructor.
  - exact Hm.
  - intros w'. 
    pose proof (Hw sine_wave) as H1. pose proof (Hw square_wave) as H2.
    pose proof (Hw white_noise) as H3. pose proof (Hw pink_noise) as H4.
    destruct m; cbn in H1, H2, H3, H4.
    destruct w', x, w; cbn in *; congruence.
  - destruct m, w, x; exact Ht.
  - exact Hs.
  - destruct m, w, x; exact Hi.
Qed.

(** Moving a slider keeps the application consistent, whatever the new
    value. *)
Lemma adj_amp_consistent (s : App) (v : float) r s' t :
  consistent s ->
  adj_amp (set_menu (set_amp_slider (set_value v (amp_slider (menu s)))
                       (menu s)) s) = Some (r, s', t) ->
  consistent s' /\ misuses t = [].
Proof.
  intros [Hm Hw Ht Hs Hi] H. rewrite adj_amp_eq in H.
  destruct s as [[[sr w amp f st] sb pb] m].
  cbn [core osc menu set_menu set_amp_slider set_value amp_slider slider_value] in H.
  destruct (amp_title_format_returns (Float v)) as [text Hv]. rewrite Hv in H.
  injection H as <- <- <-. split; [|reflexivity].
  destruct Ht as [Ht1 [Ht2 Ht3]].
  constructor.
  - exact Hm.
  - exact Hw.
  - split; [exact Ht1|]. split; [exact Hv | reflexivity].
  - exact Hs.
  - exact Hi.
Qed.

Lemma adj_freq_consistent (s : App) (v : float) r s' t :
  consistent s ->
  adj_freq (set_menu (set_freq_slider (set_value v (freq_slider (menu s)))
                        (menu s)) s) = Some (r, s', t) ->
  consistent s' /\ misuses t = [].
Proof.
  intros [Hm Hw Ht Hs Hi] H. rewrite adj_freq_eq in H.
  destruct s as [[[sr w amp f st] sb pb] m].
  cbn [core osc menu set_menu set_freq_slider set_value freq_slider slider_value] in H.
  destruct Ht as [Ht1 [Ht2 Ht3]]. destruct Hs as [Hs1 Hs2].
  destruct (slider_to_freq (Float v)) as [f'|e] eqn:Hv.
  - destruct (slider_to_freq_prints _ _ Hv) as [k [-> _]].
    destruct (freq_title_format (Int k)) as [text|e] eqn:Hf;
      injection H as <- <- <-; (split; [|reflexivity]).
    + constructor.
      * exact Hm.
      * exact Hw.
      * split; [exact Hf|]. split; [exact Ht2 | exact Ht3].
      * split; [exact Hs1 | exists k; reflexivity].
      * exact Hi.
    + constructor; [exact Hm | exact Hw | | split; assumption | exact Hi].
      split; [exact Ht1|]. split; [exact Ht2 | exact Ht3].
  - injection H as <- <- <-. split; [|reflexivity].
    constructor; [exact Hm | exact Hw | | split; assumption | exact Hi].
    split; [exact Ht1|]. split; [exact Ht2 | exact Ht3].
Qed.

(** A method of the oscillator and of the Start and Stop buttons, run on
    the application. *)
Lemma on_core_inv {A : Type} (m : method A) (s : App) r s' t :
  on_core m s = Some (r, s', t) ->
  exists c, m (core s) = Some (r, c, t) /\ s' = set_core c s.
Proof.
  unfold on_core. destruct (m (core s)) as [[[r1 c] t1]|]; [|discriminate].
  intros H. injection H as <- <- <-. exists c. split; reflexivity.
Qed.

Lemma consistent_set_core (s : App) (c : BarOscApp) :
  consistent s ->
  menu_reflects_stream c ->
  samplerate (osc c) = samplerate (osc (core s)) ->
  wave_type (osc c) = wave_type (osc (core s)) ->
  amplitude (osc c) = amplitude (osc (core s)) ->
  frequency (osc c) = frequency (osc (core s)) ->
  consistent (set_core c s).
Proof.
  intros [Hm Hw Ht Hs Hi] Hc Hsr Hwt Ha Hf.
  constructor.
  - exact Hc.
  - intros w'. unfold wave_buttons_reflect_wave in Hw.
    cbn [core menu set_core]. rewrite Hwt. apply Hw.
  - unfold titles_reflect_oscillator in *. cbn [core menu set_core].
    rewrite Hf, Ha. exact Ht.
  - unfold settings_at_rest in *. cbn [core menu set_core].
    rewrite Hsr, Hf. exact Hs.
  - exact Hi.
Qed.

(** Start while idle, Stop while streaming. *)
Lemma start_osc_consistent (s : App) r s' t :
  consistent s -> stream (osc (core s)) = None ->
  on_core start_osc s = Some (r, s', t) ->
  consistent s' /\ misuses t = [].
Proof.
  intros Hc Hst H. apply on_core_inv in H. destruct H as [c [H ->]].
  destruct s as [[[sr w amp f st] sb pb] m]. cbn [core osc stream] in *. subst st.
  cbv in H. injection H as <- <- <-. split; [|reflexivity].
  apply consistent_set_core; try reflexivity; [exact Hc|].
  split; reflexivity.
Qed.

Lemma stop_osc_consistent (s : App) (h : StreamHandle) r s' t :
  consistent s -> stream (osc (core s)) = Some h ->
  on_core stop_osc s = Some (r, s', t) ->
  consistent s' /\ misuses t = [].
Proof.
  intros Hc Hst H. apply on_core_inv in H. destruct H as [c [H ->]].
  destruct s as [[[sr w amp f st] sb pb] m]. cbn [core osc stream] in *. subst st.
  cbv in H. injection H as <- <- <-. split; [|reflexivity].
  apply consistent_set_core; try reflexivity; [exact Hc|].
  split; reflexivity.
Qed.

(** The state a sweep leaves. *)
Lemma after_sweep_consistent (s : App) :
  consistent s ->
  consistent
    (set_core (set_osc (set_stream None (osc (core s)))
                 (match stream (osc (core s)) with
                  | Some _ => osc_ready_menu (core s)
                  | None => core s
                  end)) s).
Proof.
  intros Hc. pose proof (consistent_menu s Hc) as Hm.
  destruct s as [[[sr w amp f st] sb pb] m]. cbn [core osc stream] in *.
  apply consistent_set_core; [exact Hc | | | | | ];
    destruct st; try reflexivity.
  - split; reflexivity.
  - exact Hm.
Qed.

Lemma octave_walk_consistent (fuel : nat) (s : App) r s' t :
  consistent s ->
  on_core (octave_walk fuel) s = Some (r, s', t) ->
  consistent s' /\ misuses t = [].
Proof.
  intros Hc H. apply on_core_inv in H. destruct H as [c [H ->]].
  apply octave_walk_ends in H. destruct H as [_ [-> ->]].
  split; [apply after_sweep_consistent, Hc|].
  rewrite misuses_app, misuses_stop_first, misuses_sweep_steps. reflexivity.
Qed.

Lemma octave_walk_thirds_consistent (fuel : nat) (s : App) r s' t :
  consistent s ->
  on_core (octave_walk_thirds fuel) s = Some (r, s', t) ->
  consistent s' /\ misuses t = [].
Proof.
  intros Hc H. apply on_core_inv in H. destruct H as [c [H ->]].
  apply octave_walk_thirds_ends in H. destruct H as [_ [-> [fs [f' [-> _]]]]].
  split; [apply after_sweep_consistent, Hc|].
  rewrite misuses_app, misuses_stop_first, misuses_sweep_steps. reflexivity.
Qed.

Lemma wave_eqb_neq (a b : wave) : wave_eqb a b = false -> b <> a.
Proof. destruct a, b; intros H; try discriminate H; discriminate. Qed.

(** Picking the button of a wave type: nothing when it is the current
    one, its own callback otherwise. *)
Lemma click_wave_consistent (fuel : nat) (x : wave) (s : App) r s' t :
  consistent s ->
  match item_callback (wave_buttons x (menu s)) with
  | Some c => call_menu_callback fuel c s
  | None => h_ret tt s
  end = Some (r, s', t) ->
  consistent s' /\ misuses t = [].
Proof.
  intros Hc H. rewrite (consistent_wave s Hc x) in H.
  destruct (wave_eqb x (wave_type (osc (core s)))) eqn:Hx.
  - injection H as <- <- <-. split; [exact Hc | reflexivity].
  - destruct (select_wave_consistent fuel x s r s' t Hc (wave_eqb_neq _ _ Hx) H)
      as [Hc' ->].
    split; [exact Hc' | reflexivity].
Qed.

(** Every gesture keeps the application consistent, and the oscillator is
    not misused. *)
Lemma perform_consistent (fuel : nat) (g : gesture) (s : App) r s' t :
  consistent s ->
  perform fuel g s = Some (r, s', t) ->
  consistent s' /\ misuses t = [].
Proof.
  intros Hc H.
  pose proof (consistent_menu s Hc) as Hm.
  pose proof (consistent_items s Hc) as Hi.
  destruct Hi as [I1 [I2 [I3 [I4 [I5 [I6 [I7 [I8 [I9 [I10 [I11 I12]]]]]]]]]]].
  destruct g as [i|i v]; cbn [perform] in H.
  - destruct i; cbn [click_item menu_items] in H.
    + (* Start *)
      unfold menu_reflects_stream in Hm.
      destruct (stream (osc (core s))) as [h|] eqn:Hst; destruct Hm as [Hsb Hpb];
        rewrite Hsb in H.
      * injection H as <- <- <-. split; [exact Hc | reflexivity].
      * apply (start_osc_consistent s r s' t Hc Hst H).
    + (* Stop *)
      unfold menu_reflects_stream in Hm.
      destruct (stream (osc (core s))) as [h|] eqn:Hst; destruct Hm as [Hsb Hpb];
        rewrite Hpb in H.
      * apply (stop_osc_consistent s h r s' t Hc Hst H).
      * injection H as <- <- <-. split; [exact Hc | reflexivity].
    + (* the volume title *)
      destruct (amp_title (menu s)) as [ti cb]. cbn [item_callback] in I1. subst cb.
      injection H as <- <- <-. split; [exact Hc | reflexivity].
    + apply (click_wave_consistent fuel sine_wave s r s' t Hc).
      cbn [wave_buttons]. destruct (sine_wave_button (menu s)) as [ti [c|]]; exact H.
    + apply (click_wave_consistent fuel square_wave s r s' t Hc).
      cbn [wave_buttons]. destruct (square_wave_button (menu s)) as [ti [c|]]; exact H.
    + apply (click_wave_consistent fuel white_noise s r s' t Hc).
      cbn [wave_buttons]. destruct (white_noise_button (menu s)) as [ti [c|]]; exact H.
    + apply (click_wave_consistent fuel pink_noise s r s' t Hc).
      cbn [wave_buttons]. destruct (pink_noise_button (menu s)) as [ti [c|]]; exact H.
    + (* the frequency title *)
      destruct (freq_title (menu s)) as [ti cb]. cbn [item_callback] in I5. subst cb.
      injection H as <- <- <-. split; [exact Hc | reflexivity].
    + rewrite I9 in H. apply (octave_walk_consistent fuel s r s' t Hc H).
    + rewrite I10 in H. apply (octave_walk_thirds_consistent fuel s r s' t Hc H).
    + rewrite I11 in H. injection H as <- <- <-. split; [exact Hc | reflexivity].
    + rewrite I12 in H. injection H as <- <- <-. split; [exact Hc | reflexivity].
  - destruct i; cbn [slide_item] in H; unfold h_seq, h_assign, h_read in H;
      cbn [menu set_menu set_amp_slider set_freq_slider amp_slider freq_slider
           set_value slider_callback] in H.
    + rewrite I2 in H. cbn [call_menu_callback] in H.
      destruct (adj_amp _) as [[[r1 s1] t1]|] eqn:Ha; [|discriminate].
      cbn [app] in H. injection H as <- <- <-.
      apply (adj_amp_consistent s v r1 s1 t1 Hc Ha).
    + rewrite I6 in H. cbn [call_menu_callback] in H.
      destruct (adj_freq _) as [[[r1 s1] t1]|] eqn:Ha; [|discriminate].
      cbn [app] in H. injection H as <- <- <-.
      apply (adj_freq_consistent s v r1 s1 t1 Hc Ha).
Qed.

(** The event loop keeps the application consistent, and the oscillator
    is not misused. *)
Lemma run_consistent (fuel : nat) (gestures : list gesture) :
  forall s s' t,
    consistent s ->
    run fuel gestures s = Some (s', t) ->
    consistent s' /\ misuses t = [].
Proof.
  induction gestures as [|g rest IH]; intros s s' t Hc H; cbn [run] in H.
  - injection H as <- <-. split; [exact Hc | reflexivity].
  - destruct (perform fuel g s) as [[[r1 s1] t1]|] eqn:Hp; [|discriminate].
    destruct (run fuel rest s1) as [[s2 t2]|] eqn:Hr; [|discriminate].
    injection H as <- <-.
    destruct (perform_consistent fuel g s r1 s1 t1 Hc Hp) as [Hc1 Ht1].
    destruct (IH s1 s2 t2 Hc1 Hr) as [Hc2 Ht2].
    split; [exact Hc2|]. rewrite misuses_app, Ht1, Ht2. reflexivity.
Qed.

(** The constructor returns, and the application it builds is
    consistent. *)
Lemma BarOscApp_init_consistent :
  exists s0, BarOscApp_init = Ok s0 /\ core s0 = initial_app /\ consistent s0.
Proof.
  unfold BarOscApp_init, build_menu.
  destruct (amp_title_format_returns (Float 0.5)) as [amp_text Ha]. rewrite Ha.
  replace (freq_title_format (Int 440)) with (Ok "Frequency: 440 Hz")
    by (vm_compute; reflexivity).
  destruct (freq_to_slider_returns (Int 440) eq_refl) as [v Hv]. rewrite Hv.
  destruct (freq_to_slider_returns (Int 20) eq_refl) as [lo Hlo]. rewrite Hlo.
  destruct (freq_to_slider_returns (Int 20000) eq_refl) as [hi Hhi]. rewrite Hhi.
  cbn [bind]. eexists. split; [reflexivity|]. split; [reflexivity|].
  constructor.
  - split; reflexivity.
  - intros w. destruct w; reflexivity.
  - split; [vm_compute; reflexivity|]. split; [exact Ha | reflexivity].
  - split; [reflexivity | exists 440; reflexivity].
  - repeat split; assumption.
Qed.

(** X1. [BarOscApp.__init__] never raises, whatever the C library
    returns; the application starts on a 440 Hz sine wave at amplitude 0.5
    and 44100 samples per second, with Start enabled and Stop disabled,
    the Sine Wave button disabled and the three other wave buttons
    enabled, the frequency title ["Frequency: 440 Hz"], the volume title
    the text of 0.5, the volume slider at 0.5 between 0 and 1, and the
    frequency slider at the slider value of 440 Hz between those of 20 Hz
    and of 20 kHz. *)
Theorem BarOscApp_init_returns :
  exists s0,
    BarOscApp_init = Ok s0 /\
    samplerate (osc (core s0)) = 44100 /\
    wave_type (osc (core s0)) = sine_wave /\
    amplitude (osc (core s0)) = Float 0.5 /\
    frequency (osc (core s0)) = Int 440 /\
    start_button (core s0) = Some cb_start_osc /\
    stop_button (core s0) = None /\
    item_callback (sine_wave_button (menu s0)) = None /\
    item_callback (square_wave_button (menu s0)) = Some cb_set_square_wave /\
    item_callback (white_noise_button (menu s0)) = Some cb_set_white_noise /\
    item_callback (pink_noise_button (menu s0)) = Some cb_set_pink_noise /\
    title (freq_title (menu s0)) = "Frequency: 440 Hz" /\
    amp_title_format (Float 0.5) = Ok (title (amp_title (menu s0))) /\
    slider_value (amp_slider (menu s0)) = 0.5%float /\
    min_value (amp_slider (menu s0)) = 0%float /\
    max_value (amp_slider (menu s0)) = 1%float /\
    freq_to_slider (Int 440) = Ok (Float (slider_value (freq_slider (menu s0)))) /\
    freq_to_slider (Int 20) = Ok (Float (min_value (freq_slider (menu s0)))) /\
    freq_to_slider (Int 20000) = Ok (Float (max_value (freq_slider (menu s0)))).
Proof.
  unfold BarOscApp_init, build_menu.
  destruct (amp_title_format_returns (Float 0.5)) as [amp_text Ha]. rewrite Ha.
  replace (freq_title_format (Int 440)) with (Ok "Frequency: 440 Hz")
    by (vm_compute; reflexivity).
  destruct (freq_to_slider_returns (Int 440) eq_refl) as [v Hv]. rewrite Hv.
  destruct (freq_to_slider_returns (Int 20) eq_refl) as [lo Hlo]. rewrite Hlo.
  destruct (freq_to_slider_returns (Int 20000) eq_refl) as [hi Hhi]. rewrite Hhi.
  cbn [bind]. eexists. split; [reflexivity|]. repeat split.
Qed.





(** X6. No callback ever enables Noise Panning or Settings, or gives a
    callback to a title; the sliders and the two sweep buttons keep the
    callbacks and the bounds [build_menu] gave them. *)
Theorem fixed_items_never_change (fuel : nat) (gestures : list gesture)
    (s0 s : App) (t : list event) :
  BarOscApp_init = Ok s0 ->
  run fuel gestures s0 = Some (s, t) ->
  fixed_items (menu s) /\
  noise_pan_button (menu s) = noise_pan_button (menu s0) /\
  settings_button (menu s) = settings_button (menu s0) /\
  octave_button (menu s) = octave_button (menu s0) /\
  octave_thirds_button (menu s) = octave_thirds_button (menu s0).
Proof.
  intros H0 H. destruct BarOscApp_init_consistent as [s1 [H1 [_ Hc]]].
  rewrite H0 in H1. injection H1 as <-.
  destruct (run_consistent fuel gestures s0 s t Hc H) as [Hc' _].
  pose proof (consistent_items s Hc') as Hi.
  pose proof (consistent_items s0 Hc) as Hi0.
  split; [exact Hi|].
  destruct Hi as [_ [_ [_ [_ [_ [_ [_ [_ [I9 [I10 [I11 I12]]]]]]]]]]].
  destruct Hi0 as [_ [_ [_ [_ [_ [_ [_ [_ [J9 [J10 [J11 J12]]]]]]]]]]].
  rewrite I9, I10, I11, I12, J9, J10, J11, J12. repeat split.
Qed.


(** X11. [adj_amp] never raises: for every value of the volume slider
    it sets the volume title to the text of that value and the amplitude
    of the oscillator to that value, prints one line, and changes nothing
    else; at a value [<= 0] the title is ["Volume: -∞ dBFS"]. *)
Theorem adj_amp_always_updates (s : App) :
  exists text,
    amp_title_format (Float (slider_value (amp_slider (menu s)))) = Ok text /\
    adj_amp s =
    Some (Ok tt,
          {| core := set_osc (set_amplitude (Float (slider_value (amp_slider (menu s))))
                                (osc (core s))) (core s);
             menu := set_amp_title (set_title text (amp_title (menu s)))
                       (menu s) |},
          [Print ("SLIDER ===> " ++ float_repr (slider_value (amp_slider (menu s)))
                  ++ ", AMP ===> " ++ float_repr (slider_value (amp_slider (menu s))))]) /\
    (num_leb (Float (slider_value (amp_slider (menu s)))) (Int 0) = true ->
     text = "Volume: -∞ dBFS").
Proof.
  destruct (amp_title_format_returns (Float (slider_value (amp_slider (menu s)))))
    as [text Hv].
  exists text. split; [exact Hv|]. split.
  - rewrite adj_amp_eq, Hv. reflexivity.
  - intros Hle. unfold amp_title_format, math_log10 in Hv.
    rewrite (loghelper_nonpositive _ _ Hle) in Hv.
    cbn in Hv. injection Hv as <-. reflexivity.
Qed.

(** X12. [adj_freq] either raises, a [ValueError] or an [OverflowError],
    before it has changed anything: the title, the oscillator and the
    output are as they were; or it sets the frequency of the oscillator
    to the integer [slider_to_freq] returned and the frequency title to
    the text of that integer, prints one line, and changes nothing
    else. *)
Theorem adj_freq_updates_or_raises (s : App) :
  (exists k text,
      slider_to_freq (Float (slider_value (freq_slider (menu s)))) = Ok (Int k) /\
      freq_title_format (Int k) = Ok text /\
      adj_freq s =
      Some (Ok tt,
            {| core := set_osc (set_frequency (Int k) (osc (core s))) (core s);
               menu := set_freq_title (set_title text (freq_title (menu s)))
                         (menu s) |},
            [Print ("SLIDER ===> "
                    ++ float_repr (slider_value (freq_slider (menu s)))
                    ++ ", FREQ ===> " ++ int_repr k)])) \/
  (exists e,
      (e = ValueError \/ e = OverflowError) /\
      adj_freq s = Some (Raise e, s, [])).
Proof.
  rewrite adj_freq_eq.
  destruct (slider_to_freq_outcomes (Float (slider_value (freq_slider (menu s)))))
    as [[k Hk]|[Hk|Hk]]; rewrite Hk.
  - destruct (freq_title_format (Int k)) as [text|e] eqn:Hf.
    + left. exists k, text. repeat split. exact Hf.
    + right. exists e. split; [|reflexivity].
      rewrite freq_title_format_Int in Hf.
      destruct (k <? 10000).
      * destruct (10 ^ max_str_digits <=? Z.abs k); [|discriminate].
        injection Hf as <-. left. reflexivity.
      * destruct (float_of_Z k); [discriminate|].
        injection Hf as <-. right. reflexivity.
  - right. exists ValueError. split; [left|]; reflexivity.
  - right. exists OverflowError. split; [right|]; reflexivity.
Qed.

(** X13. The callback of a wave type, called while that wave type is the
    current one, leaves its own button enabled: [wave_change_menu]
    removes the callback of the button of the new wave type first and
    sets the callback of the button of the old one after, and the two are
    the same button; the wave type buttons then no longer tell the wave
    type of the oscillator. *)
Theorem select_current_wave_enables_it (fuel : nat) (s : App) :
  exists s',
    call_menu_callback fuel (wave_methods (wave_type (osc (core s)))) s
    = Some (Ok tt, s', []) /\
    wave_type (osc (core s')) = wave_type (osc (core s)) /\
    item_callback (wave_buttons (wave_type (osc (core s'))) (menu s'))
    = Some (wave_methods (wave_type (osc (core s')))) /\
    ~ wave_buttons_reflect_wave s'.
Proof.
  rewrite wave_callback_eq. eexists. split; [reflexivity|].
  destruct s as [[[sr w amp f st] sb pb] m].
  cbn [core osc wave_type menu].
  split; [reflexivity|].
  assert (H : item_callback
                (wave_buttons w
                   (wave_buttons_set_callback w (Some (wave_methods w))
                      (wave_buttons_set_callback w None m)))
              = Some (wave_methods w)) by (destruct w; reflexivity).
  split; [exact H|].
  intros Hw. specialize (Hw w). cbn [core osc wave_type menu] in Hw.
  rewrite H in Hw. destruct w; discriminate.
Qed.

(** X14. Start then Stop is a round trip: on an idle oscillator whose
    menu says so, the two clicks play one tone at the current settings
    and leave the application exactly as it was. *)
Theorem start_then_stop_round_trip (fuel : nat) (s : App) :
  stream (osc (core s)) = None ->
  menu_reflects_stream (core s) ->
  run fuel [click item_start; click item_stop] s =
  Some (s, [Play {| stream_samplerate := samplerate (osc (core s));
                    stream_wave := wave_type (osc (core s)) |}
              (amplitude (osc (core s))) (frequency (osc (core s)));
            Stop {| stream_samplerate := samplerate (osc (core s));
                    stream_wave := wave_type (osc (core s)) |}]).
Proof.
  destruct s as [[[sr w amp f st] sb pb] m]. unfold menu_reflects_stream.
  cbn [core osc stream start_button stop_button].
  intros -> [-> ->]. reflexivity.
Qed.

(** X15. Selecting another wave type and then the first one again is a
    round trip: the application is exactly as it was, and nothing was
    played or printed. *)
Theorem wave_there_and_back (fuel : nat) (s : App) (x : wave) :
  wave_buttons_reflect_wave s ->
  x <> wave_type (osc (core s)) ->
  run fuel [click (wave_items x); click (wave_items (wave_type (osc (core s))))] s
  = Some (s, []).
Proof.
  intros Hw Hx.
  pose proof (Hw sine_wave) as H1. pose proof (Hw square_wave) as H2.
  pose proof (Hw white_noise) as H3. pose proof (Hw pink_noise) as H4.
  destruct s as [[[sr w amp f st] sb pb] m].
  destruct m as [at_ as_ [t1 c1] [t2 c2] [t3 c3] [t4 c4] ft fs ob otb npb stb lay].
  cbn in H1, H2, H3, H4, Hx.
  destruct x, w; try (exfalso; apply Hx; reflexivity);
    cbn in H1, H2, H3, H4; subst; reflexivity.
Qed.

End MenuProperties.
(** ** The event loop returns *)

Section EventLoopReturns.
Context {libm : Libm}.

(** The C library's [pow] rounds [2 ** (1/3)] correctly. *)
Hypothesis pow_third : two_pow_third = cube_root_of_two.

Lemma call_callback_returns (c : callback) (s : App) :
  exists r s' t, on_core (call_callback c) s = Some (r, s', t).
Proof.
  destruct s as [[[sr w amp f [h|]] sb pb] m]; destruct c;
    repeat eexists; reflexivity.
Qed.

Lemma call_menu_callback_returns (fuel : nat) (c : menu_callback) (s : App) :
  (20 <= fuel)%nat ->
  exists r s' t, call_menu_callback fuel c s = Some (r, s', t).
Proof.
  intros Hf. destruct c; cbn [call_menu_callback].
  - rewrite adj_amp_eq. destruct (amp_title_format _); repeat eexists; reflexivity.
  - repeat eexists; reflexivity.
  - repeat eexists; reflexivity.
  - repeat eexists; reflexivity.
  - repeat eexists; reflexivity.
  - rewrite adj_freq_eq. destruct (slider_to_freq _) as [f|e];
      [destruct (freq_title_format f)|]; repeat eexists; reflexivity.
  - unfold on_core. replace fuel with (8 + (fuel - 8))%nat by lia.
    rewrite octave_walk_run. repeat eexists; reflexivity.
  - unfold on_core. replace fuel with (20 + (fuel - 20))%nat by lia.
    rewrite (octave_walk_thirds_run pow_third). repeat eexists; reflexivity.
Qed.

Lemma perform_returns (fuel : nat) (g : gesture) (s : App) :
  (20 <= fuel)%nat ->
  exists r s' t, perform fuel g s = Some (r, s', t).
Proof.
  intros Hf.
  assert (Hret : exists r s' t, h_ret tt s = Some (r : result unit, s', t))
    by (repeat eexists; reflexivity).
  destruct g as [i|i v]; cbn [perform].
  - destruct i; cbn [click_item menu_items];
      try (destruct (start_button (core s)); [apply call_callback_returns | exact Hret]);
      try (destruct (stop_button (core s)); [apply call_callback_returns | exact Hret]);
      match goal with
      | |- context [match ?b with {| title := _; item_callback := _ |} => _ end] =>
          destruct b as [ti [c|]];
          [apply (call_menu_callback_returns fuel c s Hf) | exact Hret]
      end.
  - destruct i; cbn [slide_item]; unfold h_seq, h_assign, h_read;
      match goal with
      | |- context [slider_callback ?b] => destruct (slider_callback b) as [c|]
      end;
      try (repeat eexists; reflexivity);
      match goal with
      | |- context [call_menu_callback fuel ?c0 ?s1] =>
          destruct (call_menu_callback_returns fuel c0 s1 Hf) as [r [s' [t ->]]]
      end; repeat eexists; reflexivity.
Qed.

(** X17. With a C library whose [pow] rounds [2**(1/3)] correctly, the
    event loop goes through every list of gestures, from every state of
    the application: no callback fails to return, a sweep ending within
    20 tests of its condition, and an exception a callback raises does
    not stop the loop. *)
Theorem run_completes (fuel : nat) (gestures : list gesture) (s : App) :
  (20 <= fuel)%nat ->
  exists s' t, run fuel gestures s = Some (s', t).
Proof.
  intros Hf. revert s. induction gestures as [|g rest IH]; intros s; cbn [run].
  - repeat eexists; reflexivity.
  - destruct (perform_returns fuel g s Hf) as [r [s1 [t1 ->]]].
    destruct (IH s1) as [s2 [t2 ->]]. repeat eexists; reflexivity.
Qed.

End EventLoopReturns.

(** Both sweeps and a slider value that raises, in one session. *)
Lemma run_completes_witness :
  exists s0,
    BarOscApp_init (libm := ref_libm) = Ok s0 /\
    exists s t,
      run (libm := ref_libm) 20
        [click item_start; click item_octave; slide item_freq_slider 1.1e7;
         click item_octave_thirds] s0 = Some (s, t).
Proof.
  eexists. split; [vm_compute; reflexivity|].
  refine (@run_completes ref_libm ref_libm_pow_third 20 _ _ _). apply le_n.
Defined.






(** A session of clicks on the items that have no callback. *)
Lemma fixed_items_never_change_witness :
  exists s0 s t,
    BarOscApp_init (libm := ref_libm) = Ok s0 /\
    run (libm := ref_libm) 20
      [click item_noise_pan; click item_settings; click item_amp_title;
       click item_freq_title; click item_square_wave; slide item_amp_slider 1] s0
    = Some (s, t) /\
    fixed_items (libm := ref_libm) (menu s) /\
    noise_pan_button (menu s) = noise_pan_button (menu s0) /\
    settings_button (menu s) = settings_button (menu s0) /\
    octave_button (menu s) = octave_button (menu s0) /\
    octave_thirds_button (menu s) = octave_thirds_button (menu s0).
Proof.
  eexists; eexists; eexists.
  split; [vm_compute; reflexivity|]. split; [vm_compute; reflexivity|].
  refine (@fixed_items_never_change ref_libm 20
            [click item_noise_pan; click item_settings; click item_amp_title;
             click item_freq_title; click item_square_wave;
             slide item_amp_slider 1] _ _ _ _ _);
    [vm_compute; reflexivity | vm_compute; reflexivity].
Defined.


(** Start then Stop on the application as constructed. *)
Lemma start_then_stop_round_trip_witness :
  exists s0 t,
    BarOscApp_init (libm := ref_libm) = Ok s0 /\
    run (libm := ref_libm) 0 [click item_start; click item_stop] s0 = Some (s0, t) /\
    played t = [Int 440].
Proof.
  eexists; eexists.
  split; [vm_compute; reflexivity|].
  split; [refine (@start_then_stop_round_trip ref_libm 0 _ _ _);
          [reflexivity | split; reflexivity]
         | reflexivity].
Defined.

(** Pink noise and back on the application as constructed. *)
Lemma wave_there_and_back_witness :
  exists s0,
    BarOscApp_init (libm := ref_libm) = Ok s0 /\
    wave_type (osc (core s0)) = sine_wave /\
    run (libm := ref_libm) 0
      [click (wave_items pink_noise);
       click (wave_items (wave_type (osc (core s0))))] s0
    = Some (s0, []).
Proof.
  eexists.
  split; [vm_compute; reflexivity|].
  split; [reflexivity|].
  refine (@wave_there_and_back ref_libm 0 _ pink_noise _ _).
  - intros w. destruct w; reflexivity.
  - discriminate.
Defined.
